(** * Verification of the expense bot (src/app.py)

    A shallow embedding of the conversation handlers, of the two HTTP
    clients and of the Python library operations they rely on
    (insertion-ordered [dict], [str.join], [decimal.Decimal], binary64
    [float], the JSON values returned by [response.json()]), followed by
    the theorems that settle the specification's claims.

    Conventions.
    - A Python [str] is modelled by a Rocq [string], one [ascii] per code
      point; the model therefore covers the strings whose code points are
      below 256.
    - A Python [dict] is an association list kept in insertion order, as
      [dict] iteration is.
    - A handler runs in a small state-and-exception monad: the state is the
      session's [user_data] dict together with the messages sent to the chat
      and the HTTP requests posted so far; an exception keeps the state
      reached when it was raised, as an in-place mutated [dict] does.
    - The chat transport and the two remote services are the environment:
      sending a reply always succeeds, and what the services answer (or
      that they fail) is a parameter [world]. *)

From Stdlib Require Import String Ascii List ZArith NArith Lia Bool PeanoNat.
Import ListNotations.
Open Scope string_scope.

(* ================================================================== *)
(** * Strings *)
(* ================================================================== *)

Definition LF : string := String "010"%char "".

(** [sep.join(l)] *)
Fixpoint str_join (sep : string) (l : list string) : string :=
  match l with
  | [] => ""
  | x :: rest =>
      match rest with
      | [] => x
      | _ :: _ => x ++ sep ++ str_join sep rest
      end
  end.

(** [needle in hay] on two strings: substring test. *)
Fixpoint str_contains (needle hay : string) : bool :=
  if String.prefix needle hay then true
  else match hay with
       | EmptyString => false
       | String _ hay' => str_contains needle hay'
       end.

(** [s.split(sep)] for a one-character separator. *)
Fixpoint str_split (sep : ascii) (s : string) : list string :=
  match s with
  | EmptyString => [""]
  | String c s' =>
      if Ascii.eqb c sep then "" :: str_split sep s'
      else match str_split sep s' with
           | [] => [String c ""]
           | w :: ws => String c w :: ws
           end
  end.

Fixpoint str_mem (c : ascii) (s : string) : bool :=
  match s with
  | EmptyString => false
  | String c' s' => Ascii.eqb c' c || str_mem c s'
  end.

(* ================================================================== *)
(** * The insertion-ordered dict *)
(* ================================================================== *)

Module PyDict.
Section Dict.
Context {V : Type}.

Definition t := list (string * V).

Definition empty : t := [].

(** [d.get(k)] / [d.get(k, default)] *)
Fixpoint lookup (k : string) (d : t) : option V :=
  match d with
  | [] => None
  | (k', v) :: r => if String.eqb k' k then Some v else lookup k r
  end.

Definition get (k : string) (default : V) (d : t) : V :=
  match lookup k d with Some v => v | None => default end.

(** [k in d] *)
Definition contains (k : string) (d : t) : bool :=
  match lookup k d with Some _ => true | None => false end.

(** [d[k] = v]: an existing key keeps its position, a new key goes last. *)
Fixpoint setitem (k : string) (v : V) (d : t) : t :=
  match d with
  | [] => [(k, v)]
  | (k', v') :: r =>
      if String.eqb k' k then (k', v) :: r else (k', v') :: setitem k v r
  end.

(** [del d[k]]: [None] stands for [KeyError]. *)
Fixpoint delitem (k : string) (d : t) : option t :=
  match d with
  | [] => None
  | (k', v') :: r =>
      if String.eqb k' k then Some r
      else match delitem k r with
           | Some r' => Some ((k', v') :: r')
           | None => None
           end
  end.

(** [d.clear()] *)
Definition clear (d : t) : t := [].

(** [d.items()], [d.keys()], [len(d)] *)
Definition items (d : t) : list (string * V) := d.
Definition keys (d : t) : list string := map fst d.
Definition len (d : t) : nat := length d.

(** A dict has no two entries with the same key. *)
Definition wf (d : t) : Prop := NoDup (keys d).
End Dict.
Arguments t : clear implicits.
End PyDict.

(** The session data: [context.user_data], a [Dict[str, str]]. *)
Definition user_data_t := PyDict.t string.

(** [facts_to_str] (app.py, lines 50-53). *)
Definition fact_line (kv : string * string) : string :=
  fst kv ++ " - " ++ snd kv.

Definition facts_to_str (user_data : user_data_t) : string :=
  let facts := map fact_line (PyDict.items user_data) in
  str_join (str_join LF facts) [LF; LF].

(* ================================================================== *)
(** * binary64 floats *)
(* ================================================================== *)

(** A Python [float]: a finite non-zero value is [(-1)^neg * m * 2^e] with
    [m] odd, so that every value has one representation. *)
Inductive pyfloat :=
| FZero (neg : bool)
| FFin (neg : bool) (m : positive) (e : Z)
| FInf (neg : bool)
| FNaN.

Fixpoint odd_part (m : positive) (e : Z) : positive * Z :=
  match m with
  | xO p => odd_part p (e + 1)
  | _ => (m, e)
  end.

(** Quotient [num / den] rounded to the nearest integer, ties to even. *)
Definition div_half_even (num den : Z) : Z :=
  let q := (num / den)%Z in
  let r := (num mod den)%Z in
  match (2 * r ?= den)%Z with
  | Lt => q
  | Gt => (q + 1)%Z
  | Eq => if Z.even q then q else (q + 1)%Z
  end.

(** Floor of the binary logarithm of the positive rational [n / d]. *)
Definition log2_ratio (n d : Z) : Z :=
  let k := (Z.log2 n - Z.log2 d)%Z in
  let ge := if (0 <=? k)%Z then (d * 2 ^ k <=? n)%Z
            else (d <=? n * 2 ^ (- k))%Z in
  if ge then k else (k - 1)%Z.

(** The binary64 nearest to the positive rational [n / d], ties to even,
    with gradual underflow and overflow to infinity: what [float(s)] and
    the JSON decoder return for a decimal literal of that value. *)
Definition nearest_binary64 (neg : bool) (n d : Z) : pyfloat :=
  let e := Z.max (log2_ratio n d - 52) (-1074) in
  let m := if (0 <=? e)%Z then div_half_even n (d * 2 ^ e)
           else div_half_even (n * 2 ^ (- e)) d in
  match m with
  | Zpos p =>
      let (m', e') := odd_part p e in
      if (1024 <=? Z.log2 (Zpos m') + e')%Z then FInf neg else FFin neg m' e'
  | _ => FZero neg
  end.

(** The float written [c * 10^x] as a decimal literal ([c >= 0]). *)
Definition float_of_literal (neg : bool) (c x : Z) : pyfloat :=
  if (c <=? 0)%Z then FZero neg
  else if (0 <=? x)%Z then nearest_binary64 neg (c * 10 ^ x) 1
  else nearest_binary64 neg c (10 ^ (- x)).

(* ================================================================== *)
(** * JSON values *)
(* ================================================================== *)

(** What [response.json()] returns: the Python value of a JSON document. *)
#[local] Set Warnings "-register-all".
Inductive pyval :=
| PNone
| PBool (b : bool)
| PInt (z : Z)
| PFloat (f : pyfloat)
| PStr (s : string)
| PList (l : list pyval)
| PDict (d : list (string * pyval)).

(** [bool] is a subclass of [int]. *)
Definition as_int (v : pyval) : option Z :=
  match v with
  | PInt z => Some z
  | PBool b => Some (if b then 1 else 0)%Z
  | _ => None
  end.

(* ================================================================== *)
(** * Exceptions and results *)
(* ================================================================== *)

Inductive exn :=
| KeyError (key : pyval)
| TypeError
| IndexError
| AttributeError
| ValueError (msg : string)
| OverflowError
| InvalidOperation            (* decimal.InvalidOperation *)
| DecimalOverflow             (* decimal.Overflow *)
| RemoteError (what : string) (* raised by the HTTP client: connection,
                                 timeout, bad status, undecodable body *).

Inductive result (A : Type) :=
| Ok (a : A)
| Raise (e : exn).
Arguments Ok {A} a.
Arguments Raise {A} e.

Definition rbind {A B} (r : result A) (k : A -> result B) : result B :=
  match r with Ok a => k a | Raise e => Raise e end.

Declare Scope result_scope.
Delimit Scope result_scope with result.
Notation "'let?' x ':=' r 'in' k" := (rbind r (fun x => k))
  (at level 10, x pattern, r at level 100, k at level 200) : result_scope.

(* ================================================================== *)
(** * decimal.Decimal *)
(* ================================================================== *)

(** A finite decimal is [(-1)^neg * coeff * 10^exp] with [coeff >= 0]; as in
    Python, [12.50] (coefficient 1250, exponent -2) and [12.5] are two
    representations of one number. *)
Inductive decimal :=
| DFin (neg : bool) (coeff : Z) (exp : Z)
| DInf (neg : bool)
| DNaN (neg : bool) (signaling : bool) (payload : Z).

Fixpoint digits_fuel (fuel : nat) (n : Z) : Z :=
  match fuel with
  | O => 1
  | S f => if (n <? 10)%Z then 1 else (1 + digits_fuel f (n / 10))%Z
  end.

(** [len(str(n))] for [n >= 0]. *)
Definition num_digits (n : Z) : Z :=
  digits_fuel (Z.to_nat (Z.log2 n)) n.

(** Limits of the 64-bit build of the decimal module (MAX_PREC, MAX_EMAX,
    MIN_EMIN): the constructor is exact, and refuses what it cannot hold
    exactly within them. *)
Definition MAX_PREC : Z := 999999999999999999.
Definition MAX_EMAX : Z := 999999999999999999.
Definition MIN_EMIN : Z := -999999999999999999.

Definition exact_finite (neg : bool) (coeff exp : Z) : result decimal :=
  let etiny := (MIN_EMIN - (MAX_PREC - 1))%Z in
  if (coeff =? 0)%Z then
    if ((etiny <=? exp) && (exp <=? MAX_EMAX))%Z then Ok (DFin neg 0 exp)
    else Raise InvalidOperation
  else
    let nd := num_digits coeff in
    if ((nd <=? MAX_PREC) && (exp + nd - 1 <=? MAX_EMAX) && (etiny <=? exp))%Z
    then Ok (DFin neg coeff exp)
    else Raise InvalidOperation.

(** ** Decimal(str) *)

Definition is_space (c : ascii) : bool :=
  let n := N_of_ascii c in
  ((9 <=? n) && (n <=? 13) || (28 <=? n) && (n <=? 32)
   || (n =? 133) || (n =? 160))%N.

Fixpoint lstrip (s : string) : string :=
  match s with
  | String c s' => if is_space c then lstrip s' else s
  | EmptyString => EmptyString
  end.

Fixpoint rstrip (s : string) : string :=
  match s with
  | EmptyString => EmptyString
  | String c s' =>
      match rstrip s' with
      | EmptyString => if is_space c then EmptyString else String c EmptyString
      | r => String c r
      end
  end.

Definition strip (s : string) : string := rstrip (lstrip s).

Fixpoint remove_char (x : ascii) (s : string) : string :=
  match s with
  | EmptyString => EmptyString
  | String c s' =>
      if Ascii.eqb c x then remove_char x s' else String c (remove_char x s')
  end.

Definition digit_val (c : ascii) : option Z :=
  let n := N_of_ascii c in
  if ((48 <=? n) && (n <=? 57))%N then Some (Z.of_N (n - 48)) else None.

(** Longest prefix of digits: its value, its length, and the rest. *)
Fixpoint span_digits (acc : Z) (len : Z) (s : string) : Z * Z * string :=
  match s with
  | String c s' =>
      match digit_val c with
      | Some d => span_digits (10 * acc + d) (len + 1) s'
      | None => (acc, len, s)
      end
  | EmptyString => (acc, len, s)
  end.

Definition ascii_lower (c : ascii) : ascii :=
  let n := N_of_ascii c in
  if ((65 <=? n) && (n <=? 90))%N then ascii_of_N (n + 32) else c.

Fixpoint str_map (f : ascii -> ascii) (s : string) : string :=
  match s with
  | EmptyString => EmptyString
  | String c s' => String (f c) (str_map f s')
  end.

Definition split_sign (s : string) : bool * string :=
  match s with
  | String "-"%char s' => (true, s')
  | String "+"%char s' => (false, s')
  | _ => (false, s)
  end.

(** [exponent-part ::= indicator [sign] digits], up to the end. *)
Definition parse_exponent (s : string) : option Z :=
  match s with
  | EmptyString => Some 0%Z
  | String c s' =>
      if Ascii.eqb (ascii_lower c) "e"%char then
        let (eneg, ds) := split_sign s' in
        match span_digits 0 0 ds with
        | (v, len, EmptyString) =>
            if (len =? 0)%Z then None
            else Some (if eneg then (- v)%Z else v)
        | _ => None
        end
      else None
  end.

(** [decimal-part [exponent-part]]: coefficient and exponent. *)
Definition parse_number (s : string) : option (Z * Z) :=
  let '(ip, ilen, r1) := span_digits 0 0 s in
  let '(coeff, flen, r2) :=
    match r1 with
    | String "."%char r => span_digits ip 0 r
    | _ => (ip, 0%Z, r1)
    end in
  if (ilen + flen =? 0)%Z then None
  else match parse_exponent r2 with
       | Some x => Some (coeff, (x - flen)%Z)
       | None => None
       end.

Definition parse_payload (s : string) : option Z :=
  match span_digits 0 0 s with
  | (v, _, EmptyString) => Some v
  | _ => None
  end.

Definition Decimal_of_str (text : string) : result decimal :=
  let s := remove_char "_"%char (strip text) in
  let (neg, body) := split_sign s in
  let low := str_map ascii_lower body in
  if String.prefix "snan" low then
    match parse_payload (String.substring 4 (String.length low) low) with
    | Some p => Ok (DNaN neg true p)
    | None => Raise InvalidOperation
    end
  else if String.prefix "nan" low then
    match parse_payload (String.substring 3 (String.length low) low) with
    | Some p => Ok (DNaN neg false p)
    | None => Raise InvalidOperation
    end
  else if String.eqb low "inf" || String.eqb low "infinity" then Ok (DInf neg)
  else
    match parse_number body with
    | Some (coeff, x) => exact_finite neg coeff x
    | None => Raise InvalidOperation
    end.

(** ** Decimal(float), Decimal(int) *)

Definition Decimal_of_float (f : pyfloat) : decimal :=
  match f with
  | FZero neg => DFin neg 0 0
  | FFin neg m e =>
      let (n, k) := odd_part m e in
      if (0 <=? k)%Z then DFin neg (Zpos n * 2 ^ k) 0
      else DFin neg (Zpos n * 5 ^ (- k)) k
  | FInf neg => DInf neg
  | FNaN => DNaN false false 0
  end.

Definition Decimal_of_int (z : Z) : decimal :=
  DFin (z <? 0)%Z (Z.abs z) 0.

(** ** Arithmetic in the default context

    [getcontext()] is never changed by the program: precision 28,
    ROUND_HALF_EVEN, Emin -999999, Emax 999999, and the traps
    InvalidOperation, DivisionByZero and Overflow, which raise. *)

Definition PREC : Z := 28.
Definition EMAX : Z := 999999.
Definition EMIN : Z := -999999.
Definition Etiny : Z := EMIN - PREC + 1.
Definition Etop : Z := EMAX - PREC + 1.

(** [Decimal._fix]: round a finite result to the context. *)
Definition dec_fix (neg : bool) (coeff exp : Z) : result decimal :=
  if (coeff =? 0)%Z then Ok (DFin neg 0 (Z.min (Z.max exp Etiny) EMAX))
  else
    let exp_min := (num_digits coeff + exp - PREC)%Z in
    if (Etop <? exp_min)%Z then Raise DecimalOverflow
    else
      let exp_min := Z.max exp_min Etiny in
      if (exp <? exp_min)%Z then
        let c := div_half_even coeff (10 ^ (exp_min - exp)) in
        let (c, exp_min) :=
          if (PREC <? num_digits c)%Z then ((c / 10)%Z, (exp_min + 1)%Z)
          else (c, exp_min) in
        if (Etop <? exp_min)%Z then Raise DecimalOverflow
        else Ok (DFin neg c exp_min)
      else Ok (DFin neg coeff exp).

Definition fix_nan (neg : bool) (payload : Z) : decimal :=
  DNaN neg false (payload mod 10 ^ PREC).

(** [a * b] ([Decimal.__mul__]). *)
Definition dec_mul (a b : decimal) : result decimal :=
  match a, b with
  | DNaN _ true _, _ => Raise InvalidOperation
  | _, DNaN _ true _ => Raise InvalidOperation
  | DNaN s false p, _ => Ok (fix_nan s p)
  | _, DNaN s false p => Ok (fix_nan s p)
  | DInf s1, DInf s2 => Ok (DInf (xorb s1 s2))
  | DInf s1, DFin s2 c _ =>
      if (c =? 0)%Z then Raise InvalidOperation else Ok (DInf (xorb s1 s2))
  | DFin s1 c _, DInf s2 =>
      if (c =? 0)%Z then Raise InvalidOperation else Ok (DInf (xorb s1 s2))
  | DFin s1 c1 e1, DFin s2 c2 e2 =>
      dec_fix (xorb s1 s2) (c1 * c2) (e1 + e2)
  end.

(** [float(d)] ([Decimal.__float__]): the nearest binary64. *)
Definition float_of_Decimal (d : decimal) : result pyfloat :=
  match d with
  | DNaN _ true _ => Raise (ValueError "cannot convert signaling NaN to float")
  | DNaN _ false _ => Ok FNaN
  | DInf neg => Ok (FInf neg)
  | DFin neg c x => Ok (float_of_literal neg c x)
  end.

(** [a == b] on decimals: numerical equality, whatever the representation. *)
Definition dec_eqb (a b : decimal) : bool :=
  match a, b with
  | DFin s1 c1 e1, DFin s2 c2 e2 =>
      let e := Z.min e1 e2 in
      let v1 := (c1 * 10 ^ (e1 - e))%Z in
      let v2 := (c2 * 10 ^ (e2 - e))%Z in
      ((if s1 then - v1 else v1) =? (if s2 then - v2 else v2))%Z
  | DInf s1, DInf s2 => Bool.eqb s1 s2
  | _, _ => false
  end.

(** ** Operations on JSON values *)

(** [v[key]] with a string key. *)
Definition py_getitem_str (v : pyval) (key : string) : result pyval :=
  match v with
  | PDict d =>
      match PyDict.lookup key d with
      | Some x => Ok x
      | None => Raise (KeyError (PStr key))
      end
  | _ => Raise TypeError
  end.

(** [v.get(key, default)]: only a dict has the method. *)
Definition py_get (v : pyval) (key : string) (default : pyval) : result pyval :=
  match v with
  | PDict d => Ok (PyDict.get key default d)
  | _ => Raise AttributeError
  end.

Definition is_str (s : string) (v : pyval) : bool :=
  match v with PStr s' => String.eqb s' s | _ => false end.

(** [key in v] with a string key. *)
Definition py_contains (key : string) (v : pyval) : result bool :=
  match v with
  | PDict d => Ok (PyDict.contains key d)
  | PList l => Ok (existsb (is_str key) l)
  | PStr s => Ok (str_contains key s)
  | _ => Raise TypeError
  end.

(** [len(v)] *)
Definition py_len (v : pyval) : result Z :=
  match v with
  | PDict d => Ok (Z.of_nat (List.length d))
  | PList l => Ok (Z.of_nat (List.length l))
  | PStr s => Ok (Z.of_nat (String.length s))
  | _ => Raise TypeError
  end.

(** [v[0]] *)
Definition py_getitem_0 (v : pyval) : result pyval :=
  match v with
  | PList (x :: _) => Ok x
  | PList [] => Raise IndexError
  | PStr (String c _) => Ok (PStr (String c ""))
  | PStr EmptyString => Raise IndexError
  | PDict _ => Raise (KeyError (PInt 0))
  | _ => Raise TypeError
  end.

(** ** Decimal(sequence): [(sign, digits, exponent)] *)

Definition C_LONG_MIN : Z := - 2 ^ 63.
Definition C_LONG_MAX : Z := 2 ^ 63 - 1.
Definition in_c_long (z : Z) : bool :=
  ((C_LONG_MIN <=? z) && (z <=? C_LONG_MAX))%Z.

Definition seq_sign (v : pyval) : result bool :=
  match as_int v with
  | Some z =>
      if negb (in_c_long z) then Raise OverflowError
      else if (z =? 0)%Z then Ok false
      else if (z =? 1)%Z then Ok true
      else Raise (ValueError "sign must be an integer with the value 0 or 1")
  | None => Raise (ValueError "sign must be an integer with the value 0 or 1")
  end.

Inductive seq_kind := SeqFinite (exp : Z) | SeqInf | SeqNaN (signaling : bool).

Definition seq_exponent (v : pyval) : result seq_kind :=
  match v with
  | PStr s =>
      if String.eqb s "F" then Ok SeqInf
      else if String.eqb s "n" then Ok (SeqNaN false)
      else if String.eqb s "N" then Ok (SeqNaN true)
      else Raise (ValueError
             "string argument in the third position must be 'F', 'n' or 'N'")
  | _ =>
      match as_int v with
      | Some z => if in_c_long z then Ok (SeqFinite z) else Raise OverflowError
      | None => Raise (ValueError "exponent must be an integer")
      end
  end.

Fixpoint seq_digits (acc : Z) (l : list pyval) : result Z :=
  match l with
  | [] => Ok acc
  | v :: r =>
      match as_int v with
      | Some z =>
          if negb (in_c_long z) then Raise OverflowError
          else if ((0 <=? z) && (z <=? 9))%Z then seq_digits (10 * acc + z) r
          else Raise (ValueError "coefficient must be a tuple of digits")
      | None => Raise (ValueError "coefficient must be a tuple of digits")
      end
  end.

Definition Decimal_of_sequence (l : list pyval) : result decimal :=
  match l with
  | [s; ds; x] =>
      (let? neg := seq_sign s in
       let? kind := seq_exponent x in
       let? coeff :=
         match ds with
         | PList digits => seq_digits 0 digits
         | _ => Raise (ValueError "coefficient must be a tuple of digits")
         end in
       match kind with
       | SeqFinite exp => exact_finite neg coeff exp
       | SeqInf => Ok (DInf neg)
       | SeqNaN sig => Ok (DNaN neg sig coeff)
       end)%result
  | _ => Raise (ValueError "argument must be a sequence of length 3")
  end.

(** [Decimal(v)] *)
Definition Decimal (v : pyval) : result decimal :=
  match v with
  | PStr s => Decimal_of_str s
  | PInt z => Ok (Decimal_of_int z)
  | PBool b => Ok (Decimal_of_int (if b then 1 else 0))
  | PFloat f => Ok (Decimal_of_float f)
  | PList l => Decimal_of_sequence l
  | PNone | PDict _ => Raise TypeError
  end.

(* ================================================================== *)
(** * The chat transport and the remote services *)
(* ================================================================== *)

Inductive keyboard :=
| NoKeyboard
| ReplyKeyboard (rows : list (list string))
| InlineKeyboard (rows : list (list (string * string))).

(** A message sent to the chat with [reply_text]. *)
Record message := { msg_text : string; msg_markup : keyboard }.

(** [requests.post(url, headers=..., json=..., timeout=...)] *)
Record http_request := {
  req_url : string;
  req_headers : list (string * string);
  req_json : pyval;
  req_timeout : Z
}.

(** The environment of one handler run: what the remote services answer,
    and the clock.  [http_get url] is [requests.get(url).json()];
    [http_post r] is the POST followed by [raise_for_status()] and
    [.json()]. *)
Record world := {
  http_get : string -> result pyval;
  http_post : http_request -> result pyval;
  now_month : string;
  now_date : string
}.

(** What a handler can change: the session's [user_data], and the
    messages and requests it has sent, oldest first. *)
Record context := {
  user_data : user_data_t;
  outbox : list message;
  posted : list http_request
}.

Definition M (A : Type) : Type := world -> context -> context * result A.

Definition ret {A} (a : A) : M A := fun _ c => (c, Ok a).

Definition bind {A B} (m : M A) (k : A -> M B) : M B :=
  fun w c =>
    match m w c with
    | (c', Ok a) => k a w c'
    | (c', Raise e) => (c', Raise e)
    end.

Definition raise {A} (e : exn) : M A := fun _ c => (c, Raise e).

Definition lift {A} (r : result A) : M A := fun _ c => (c, r).

Definition ask : M world := fun w c => (c, Ok w).

Definition get_user_data : M user_data_t := fun _ c => (c, Ok (user_data c)).

Definition put_user_data (d : user_data_t) : M unit :=
  fun _ c => ({| user_data := d; outbox := outbox c; posted := posted c |},
              Ok tt).

Definition reply_text (text : string) (markup : keyboard) : M unit :=
  fun _ c =>
    ({| user_data := user_data c;
        outbox := outbox c ++ [{| msg_text := text; msg_markup := markup |}];
        posted := posted c |}, Ok tt).

Definition requests_post (r : http_request) : M pyval :=
  fun w c =>
    ({| user_data := user_data c; outbox := outbox c;
        posted := posted c ++ [r] |}, http_post w r).

Declare Scope monad_scope.
Delimit Scope monad_scope with monad.
Notation "x <- m ;; k" := (bind m (fun x => k))
  (at level 61, m at next level, right associativity) : monad_scope.
Notation "m ;;; k" := (bind m (fun _ => k))
  (at level 61, right associativity) : monad_scope.
Open Scope monad_scope.

(** [user_data[k] = v] and [del user_data[k]] *)
Definition set_item (k v : string) : M unit :=
  d <- get_user_data ;; put_user_data (PyDict.setitem k v d).

Definition del_item (k : string) : M unit :=
  d <- get_user_data ;;
  match PyDict.delitem k d with
  | Some d' => put_user_data d'
  | None => raise (KeyError (PStr k))
  end.

(** An incoming update: a text message (with the name of the bot command
    it starts with, if it starts with one) or a pressed inline button. *)
Inductive update :=
| Message (text : string) (command : option string)
| CallbackQuery (data : string).

(** [update.message.text]: [update.message] is [None] for a button press. *)
Definition message_text (u : update) : M string :=
  match u with
  | Message text _ => ret text
  | CallbackQuery _ => raise AttributeError
  end.

(** [update.callback_query.data] *)
Definition query_data (u : update) : M string :=
  match u with
  | CallbackQuery data => ret data
  | Message _ _ => raise AttributeError
  end.

(** [update.message.reply_text] *)
Definition message_reply_text (u : update) (text : string) (k : keyboard)
  : M unit :=
  match u with
  | Message _ _ => reply_text text k
  | CallbackQuery _ => raise AttributeError
  end.

(** [s.lower()] *)
Definition lower_char (c : ascii) : ascii :=
  let n := N_of_ascii c in
  if ((65 <=? n) && (n <=? 90)
      || (192 <=? n) && (n <=? 222) && negb (n =? 215))%N
  then ascii_of_N (n + 32) else c.

Definition str_lower (s : string) : string := str_map lower_char s.

(* ================================================================== *)
(** * The program: constants (app.py, lines 31-48) *)
(* ================================================================== *)

Definition CHOOSING : Z := 0.
Definition TYPING_REPLY : Z := 1.
Definition TYPING_CHOICE : Z := 2.
Definition TYPING_APT : Z := 3.
(** [ConversationHandler.END] *)
Definition END : Z := -1.

Definition reply_keyboard : list (list string) :=
  [ ["Name of Expense"; "Expense Type"];
    ["Amount in GHS"; "Notes"; "Apt"];
    ["Done"] ].

Definition markup : keyboard := ReplyKeyboard reply_keyboard.

Definition expense_types : list string :=
  [ "Electric"; "Water"; "Internet"; "DSTV"; "Cleaning Supplies";
    "Home Repairs and Maintenance"; "HOA Service Charge"; "Insurance" ].

Definition apt_options : list (string * string) :=
  [ ("Option 103", "103"); ("Option 108", "108") ].

(* ================================================================== *)
(** * The two clients (app.py, lines 210-260) *)
(* ================================================================== *)

Definition rate_url : string :=
  "https://api.exchangerate-api.com/v4/latest/GHS".

(** The float [1.0]. *)
Definition float_one : pyfloat := FFin false 1 0.

(** [get_exchange_rate] (lines 210-215). *)
Definition get_exchange_rate : M pyval :=
  w <- ask ;;
  data <- lift (http_get w rate_url) ;;
  rates <- lift (py_getitem_str data "rates") ;;
  lift (py_get rates "USD" (PFloat float_one)).

Definition url_108 : string :=
  "https://api.airtable.com/v0/appT4yGhNwVtyB8jR/Income%20%26%20Expenses".
Definition url_103 : string :=
  "https://api.airtable.com/v0/appqfgm6p6MSGLfI3/Income%20%26%20Expenses".

(** The first statement of [update_airtable] (lines 219-224): the endpoint
    for an apartment code. *)
Definition select_url (apt : string) : result string :=
  if String.eqb apt "108" then Ok url_108
  else if String.eqb apt "103" then Ok url_103
  else Raise (ValueError "Invalid apt value").

(** [update_airtable] (lines 217-260); the two [print] calls write to the
    standard output only and are left out. *)
Definition update_airtable (name expense_type : string) (expense : decimal)
    (notes apt : string) : M pyval :=
  url <- lift (select_url apt) ;;
  let headers := [ ("Authorization", "Bearer Bearer");
                   ("Content-Type", "application/json") ] in
  w <- ask ;;
  let current_month := now_month w in
  let current_date := now_date w in
  expense_float <- lift (float_of_Decimal expense) ;;
  let data :=
    PDict [ ("records",
             PList [ PDict [ ("fields",
               PDict [ ("Name", PStr name);
                       ("Month", PStr current_month);
                       ("Category", PStr expense_type);
                       ("Expense", PFloat expense_float);
                       ("Notes", PStr notes);
                       ("Date", PStr current_date) ]) ] ]);
            ("typecast", PBool true) ] in
  response_json <- requests_post {| req_url := url; req_headers := headers;
                                    req_json := data; req_timeout := 10 |} ;;
  ret response_json.

(* ================================================================== *)
(** * The conversation handlers (app.py, lines 55-208) *)
(* ================================================================== *)

(** [start] (lines 55-63). *)
Definition start (u : update) : M Z :=
  message_reply_text u
    ("Hi! My name is Dilligent your expense Botter. I will update airtables with your expenses. "
     ++ "Why don't you tell me what you have spent on?") markup ;;;
  ret CHOOSING.

(** [expense_type_choice] (lines 78-88). *)
Definition expense_type_choice (u : update) : M Z :=
  let keyboard := map (fun expense => [(expense, expense)]) expense_types in
  let reply_markup := InlineKeyboard keyboard in
  message_reply_text u "Please choose an expense type from the list below:"
    reply_markup ;;;
  ret TYPING_CHOICE.

(** [apt_choice] (lines 113-123). *)
Definition apt_choice (u : update) : M Z :=
  let keyboard := map (fun '(name, value) => [(name, value)]) apt_options in
  let reply_markup := InlineKeyboard keyboard in
  message_reply_text u "Please choose an Apt option from the list below:"
    reply_markup ;;;
  ret TYPING_APT.

(** [regular_choice] (lines 65-76). *)
Definition regular_choice (u : update) : M Z :=
  text <- message_text u ;;
  if String.eqb text "Expense Type" then expense_type_choice u
  else if String.eqb text "Apt" then apt_choice u
  else
    set_item "choice" text ;;;
    message_reply_text u
      ("Your " ++ str_lower text ++ "? Yes, I would love to hear about that!")
      NoKeyboard ;;;
    ret TYPING_REPLY.

(** [received_information] (lines 148-170).  [if choice:] is the truth
    value of an optional string: present and not empty. *)
Definition received_information (u : update) : M Z :=
  user_data <- get_user_data ;;
  text <- message_text u ;;
  let choice := PyDict.lookup "choice" user_data in
  match choice with
  | Some (String c0 rest) =>
      let choice := String c0 rest in
      set_item choice text ;;;
      del_item "choice" ;;;
      user_data <- get_user_data ;;
      message_reply_text u
        ("Neat! Just so you know, this is what you already told me:"
         ++ facts_to_str user_data
         ++ "You can tell me more, or change your opinion"
         ++ " on something.") markup ;;;
      ret CHOOSING
  | _ =>
      message_reply_text u
        "I didn't receive the category. Please try again." markup ;;;
      ret CHOOSING
  end.

(** Lines 185-188 of [done]: the amount, or zero when the text does not
    parse ([except:] catches every exception). *)
Definition parse_amount (amount_str : string) : decimal :=
  match Decimal (PStr amount_str) with
  | Ok amount_ghs => amount_ghs
  | Raise _ => Decimal_of_int 0
  end.

(** Line 192 of [done]: [amount_ghs * Decimal(exchange_rate)]. *)
Definition convert_to_usd (amount_ghs : decimal) (exchange_rate : pyval)
  : result decimal :=
  (let? rate := Decimal exchange_rate in dec_mul amount_ghs rate)%result.

(** Line 202 of [done]:
    ["records" in response and len(response["records"]) > 0
     and "id" in response["records"][0]]. *)
Definition response_has_id (response : pyval) : result bool :=
  (let? has_records := py_contains "records" response in
   if negb has_records then Ok false
   else
     let? records := py_getitem_str response "records" in
     let? n := py_len records in
     if negb (0 <? n)%Z then Ok false
     else
       let? records := py_getitem_str response "records" in
       let? first := py_getitem_0 records in
       py_contains "id" first)%result.

(** [done] (lines 172-208); the two [logger.info] calls are left out. *)
Definition done (u : update) : M Z :=
  user_data <- get_user_data ;;
  (if PyDict.contains "choice" user_data then del_item "choice" else ret tt) ;;;
  user_data <- get_user_data ;;
  let name := PyDict.get "Name of Expense" "Unknown" user_data in
  let expense_type := PyDict.get "Expense Type" "Uncategorized" user_data in
  let amount_str := PyDict.get "Amount in GHS" "0" user_data in
  let notes := PyDict.get "Notes" "" user_data in
  let apt := PyDict.get "Apt" "108" user_data in
  let amount_ghs := parse_amount amount_str in
  exchange_rate <- get_exchange_rate ;;
  amount_usd <- lift (convert_to_usd amount_ghs exchange_rate) ;;
  response <- update_airtable name expense_type amount_usd notes apt ;;
  ok <- lift (response_has_id response) ;;
  (if ok then message_reply_text u "Successfully updated Airtable!" NoKeyboard
   else message_reply_text u
          "Failed to update Airtable. Please try again later." NoKeyboard) ;;;
  user_data <- get_user_data ;;
  put_user_data (PyDict.clear user_data) ;;;
  ret END.

(* ================================================================== *)
(** * Filters and handlers of the framework *)
(* ================================================================== *)

(** The two patterns of the program have the form [^(a|b|...)$].  With
    [re.search], [$] also matches just before a final newline. *)
Inductive filter :=
| TEXT
| COMMAND
| Regex (alternatives : list string)
| f_and (f g : filter)
| f_or (f g : filter)
| f_not (f : filter).

Definition regex_search (alternatives : list string) (text : string) : bool :=
  existsb (fun a => String.eqb text a || String.eqb text (a ++ LF))
          alternatives.

(** A filter applied to a message. *)
Fixpoint filter_message (f : filter) (text : string) (command : option string)
  : bool :=
  match f with
  | TEXT => negb (String.eqb text "")
  | COMMAND => match command with Some _ => true | None => false end
  | Regex alts => negb (String.eqb text "") && regex_search alts text
  | f_and g h => filter_message g text command && filter_message h text command
  | f_or g h => filter_message g text command || filter_message h text command
  | f_not g => negb (filter_message g text command)
  end.

Inductive handler :=
| CommandHandler (command : string) (callback : update -> M Z)
| MessageHandler (filters : filter) (callback : update -> M Z)
| CallbackQueryHandler (callback : update -> M Z).

Definition handler_callback (h : handler) : update -> M Z :=
  match h with
  | CommandHandler _ cb => cb
  | MessageHandler _ cb => cb
  | CallbackQueryHandler cb => cb
  end.

(** [handler.check_update(update)] *)
Definition handler_check (h : handler) (u : update) : bool :=
  match h, u with
  | CommandHandler name _, Message _ (Some c) => String.eqb c name
  | MessageHandler f _, Message text command => filter_message f text command
  | CallbackQueryHandler _, CallbackQuery _ => true
  | _, _ => false
  end.

Record ConversationHandler := {
  entry_points : list handler;
  states : list (Z * list handler);
  fallbacks : list handler
}.

Fixpoint states_get (st : Z) (l : list (Z * list handler)) : list handler :=
  match l with
  | [] => []
  | (k, hs) :: r => if (k =? st)%Z then hs else states_get st r
  end.

Definition first_match (hs : list handler) (u : update) : option handler :=
  find (fun h => handler_check h u) hs.

(** [ConversationHandler.check_update]: with no conversation going on
    ([None]) only the entry points are tried; otherwise the handlers of the
    current state, then the fallbacks. *)
Definition check_update (ch : ConversationHandler) (conv : option Z)
    (u : update) : option handler :=
  match conv with
  | None => first_match (entry_points ch) u
  | Some st =>
      match first_match (states_get st (states ch)) u with
      | Some h => Some h
      | None => first_match (fallbacks ch) u
      end
  end.

(** [ConversationHandler.handle_update]: run the callback; its result is
    the new state, [END] closes the conversation; when it raises, the state
    is left as it was and the exception goes to the application. *)
Definition handle_update (ch : ConversationHandler) (conv : option Z)
    (u : update) (w : world) (c : context) : option Z * context * option exn :=
  match check_update ch conv u with
  | None => (conv, c, None)
  | Some h =>
      match handler_callback h u w c with
      | (c', Ok new_state) =>
          (if (new_state =? END)%Z then None else Some new_state, c', None)
      | (c', Raise e) => (conv, c', Some e)
      end
  end.

(** The updates of one chat, handled in order; the world may answer
    differently at each update. *)
Fixpoint handle_updates (ch : ConversationHandler) (conv : option Z)
    (c : context) (us : list (update * world)) : option Z * context :=
  match us with
  | [] => (conv, c)
  | (u, w) :: r =>
      let '(conv', c', _) := handle_update ch conv u w c in
      handle_updates ch conv' c' r
  end.

(* ================================================================== *)
(** * The handlers that use [str.format], and [main] *)
(* ================================================================== *)

Section Bot.

(** [template.format(name=value)].  The replacement-field syntax of
    [str.format] (conversions, format specifications, attribute and index
    access) is not modelled: the method is a parameter of the
    development. *)
Variable str_format : string -> string -> string -> result string.

(** [expense_type_selected] (lines 90-111); [query.answer()] only
    acknowledges the button press to the transport. *)
Definition expense_type_selected (u : update) : M Z :=
  selected_expense_type <- query_data u ;;
  set_item "Expense Type" selected_expense_type ;;;
  user_data <- get_user_data ;;
  let summary_text :=
    "You selected the expense type: {selected_expense_type}." ++ LF ++ LF
    ++ "Neat! Just so you know, this is what you already told me:" ++ LF
    ++ facts_to_str user_data
    ++ "You can tell me more, or change your opinion on something." in
  text <- lift (str_format summary_text "selected_expense_type"
                           selected_expense_type) ;;
  reply_text text (ReplyKeyboard reply_keyboard) ;;;
  ret CHOOSING.

(** [apt_selected] (lines 125-146). *)
Definition apt_selected (u : update) : M Z :=
  selected_apt <- query_data u ;;
  set_item "Apt" selected_apt ;;;
  user_data <- get_user_data ;;
  let summary_text :=
    "You selected the Apt: {selected_apt}." ++ LF ++ LF
    ++ "Neat! Just so you know, this is what you already told me:" ++ LF
    ++ facts_to_str user_data
    ++ "You can tell me more, or change your opinion on something." in
  text <- lift (str_format summary_text "selected_apt" selected_apt) ;;
  reply_text text (ReplyKeyboard reply_keyboard) ;;;
  ret CHOOSING.

(** [conv_handler] in [main] (lines 268-290). *)
Definition conv_handler : ConversationHandler :=
  {| entry_points := [CommandHandler "start" start];
     states :=
       [ (CHOOSING,
          [MessageHandler
             (Regex ["Name of Expense"; "Expense Type"; "Amount in GHS";
                     "Notes"; "Apt"]) regular_choice]);
         (TYPING_CHOICE, [CallbackQueryHandler expense_type_selected]);
         (TYPING_APT, [CallbackQueryHandler apt_selected]);
         (TYPING_REPLY,
          [MessageHandler
             (f_and TEXT (f_not (f_or COMMAND (Regex ["Done"]))))
             received_information]) ];
     fallbacks := [MessageHandler (Regex ["Done"]) done] |}.

End Bot.

(** A [str.format] for templates whose only braces are those of one
    replacement field [{name}]: the field is replaced by the value.  Any
    other use of braces is refused here; it serves as an instance of the
    parameter above. *)
Fixpoint has_brace (s : string) : bool :=
  match s with
  | EmptyString => false
  | String c s' =>
      Ascii.eqb c "{"%char || Ascii.eqb c "}"%char || has_brace s'
  end.

Fixpoint format_plain (template name value : string) : result string :=
  match template with
  | EmptyString => Ok EmptyString
  | String c rest =>
      if Ascii.eqb c "{"%char then
        if String.prefix (name ++ "}") rest then
          let tail := String.substring (String.length name + 1)
                        (String.length rest) rest in
          if has_brace tail then Raise (ValueError "unsupported format string")
          else Ok (value ++ tail)
        else Raise (ValueError "unsupported format string")
      else if Ascii.eqb c "}"%char then
        Raise (ValueError "Single '}' encountered in format string")
      else
        match format_plain rest name value with
        | Ok r => Ok (String c r)
        | Raise e => Raise e
        end
  end.

(* ================================================================== *)
(** * Notions used in the statements *)
(* ================================================================== *)




(** [key in v] for a payload that may or may not be a dict. *)
Definition has_key (key : string) (v : pyval) : bool :=
  match v with
  | PDict d => PyDict.contains key d
  | _ => false
  end.

(** The request that [update_airtable] builds. *)
Definition airtable_request (w : world) (url name expense_type : string)
    (expense_float : pyfloat) (notes : string) : http_request :=
  {| req_url := url;
     req_headers := [ ("Authorization", "Bearer Bearer");
                      ("Content-Type", "application/json") ];
     req_json :=
       PDict [ ("records",
                PList [ PDict [ ("fields",
                  PDict [ ("Name", PStr name);
                          ("Month", PStr (now_month w));
                          ("Category", PStr expense_type);
                          ("Expense", PFloat expense_float);
                          ("Notes", PStr notes);
                          ("Date", PStr (now_date w)) ]) ] ]);
               ("typecast", PBool true) ];
     req_timeout := 10 |}.

(** Field [k] of the record carried by a request. *)
Definition request_field (k : string) (r : http_request) : option pyval :=
  match req_json r with
  | PDict (("records", PList (PDict (("fields", PDict fields) :: _) :: _)) :: _)
      => PyDict.lookup k fields
  | _ => None
  end.

(** The session data once [done] has dropped a pending ["choice"]. *)
Definition discard_choice (ud : user_data_t) : user_data_t :=
  if PyDict.contains "choice" ud then
    match PyDict.delitem "choice" ud with
    | Some ud' => ud'
    | None => ud
    end
  else ud.

(** What [done] computes between dropping ["choice"] and posting: the
    request, or the exception that ends the run before any request. *)
Definition prepare_submission (w : world) (ud : user_data_t)
  : result http_request :=
  (let? data := http_get w rate_url in
   let? rates := py_getitem_str data "rates" in
   let? exchange_rate := py_get rates "USD" (PFloat float_one) in
   let? amount_usd :=
     convert_to_usd (parse_amount (PyDict.get "Amount in GHS" "0" ud))
                    exchange_rate in
   let? url := select_url (PyDict.get "Apt" "108" ud) in
   let? expense_float := float_of_Decimal amount_usd in
   Ok (airtable_request w url
         (PyDict.get "Name of Expense" "Unknown" ud)
         (PyDict.get "Expense Type" "Uncategorized" ud)
         expense_float
         (PyDict.get "Notes" "" ud)))%result.

Definition completion_reply (ok : bool) : message :=
  {| msg_text := if ok then "Successfully updated Airtable!"
                 else "Failed to update Airtable. Please try again later.";
     msg_markup := NoKeyboard |}.

Definition with_user_data (c : context) (ud : user_data_t) : context :=
  {| user_data := ud; outbox := outbox c; posted := posted c |}.

(** A world for concrete runs: the rate service answers [rate_payload] and
    the record store answers [store_response]. *)
Definition sample_world (rate_payload : pyval) (store_response : result pyval)
  : world :=
  {| http_get := fun _ => Ok rate_payload;
     http_post := fun _ => store_response;
     now_month := "November";
     now_date := "2026-11-04" |}.

Definition sample_context (ud : user_data_t) : context :=
  {| user_data := ud; outbox := []; posted := [] |}.

(** The payload [{"rates": {"USD": x}}]. *)
Definition rates_payload (usd : pyval) : pyval :=
  PDict [("rates", PDict [("USD", usd)])].

(** The float that the literal [0.083] denotes, and the one of [8.3]. *)
Definition float_0_083 : pyfloat := float_of_literal false 83 (-3).
Definition float_8_3 : pyfloat := float_of_literal false 83 (-1).

(** The decimal [8.3]. *)
Definition decimal_8_3 : decimal := DFin false 83 (-1).

(** The reply of [received_information] after storing a value. *)
Definition summary_reply (ud : user_data_t) : message :=
  {| msg_text := "Neat! Just so you know, this is what you already told me:"
                 ++ facts_to_str ud
                 ++ "You can tell me more, or change your opinion"
                 ++ " on something.";
     msg_markup := markup |}.

(** The field labels accepted in the state [CHOOSING]. *)
Definition field_labels : list string :=
  ["Name of Expense"; "Expense Type"; "Amount in GHS"; "Notes"; "Apt"].

(** The templates that the two selection handlers pass to [str.format]. *)
Definition expense_type_template (ud : user_data_t) : string :=
  "You selected the expense type: {selected_expense_type}." ++ LF ++ LF
  ++ "Neat! Just so you know, this is what you already told me:" ++ LF
  ++ facts_to_str ud
  ++ "You can tell me more, or change your opinion on something.".

Definition apt_template (ud : user_data_t) : string :=
  "You selected the Apt: {selected_apt}." ++ LF ++ LF
  ++ "Neat! Just so you know, this is what you already told me:" ++ LF
  ++ facts_to_str ud
  ++ "You can tell me more, or change your opinion on something.".

(** What holds of a session between two updates: the data is a dict; the
    conversation is closed or in one of the four states; a closed
    conversation holds no data; a pending marker exists only while a
    free-text reply is awaited, and names an accepted label; every key is
    the marker or an accepted label. *)
Definition session_inv (conv : option Z) (c : context) : Prop :=
  PyDict.wf (user_data c)
  /\ In conv [None; Some CHOOSING; Some TYPING_REPLY; Some TYPING_CHOICE;
              Some TYPING_APT]
  /\ (conv = None -> user_data c = [])
  /\ (conv <> Some TYPING_REPLY ->
      PyDict.lookup "choice" (user_data c) = None)
  /\ (forall f, PyDict.lookup "choice" (user_data c) = Some f ->
                regex_search field_labels f = true)
  /\ (forall k, In k (PyDict.keys (user_data c)) ->
                k = "choice" \/ regex_search field_labels k = true).

(** The greeting sent by [start]. *)
Definition greeting : message :=
  {| msg_text := "Hi! My name is Dilligent your expense Botter. I will update airtables with your expenses. Why don't you tell me what you have spent on?";
     msg_markup := markup |}.

(** The conversation of the end-to-end scenario: open, give a name, give
    an amount, choose an apartment, complete. *)
Definition scenario (name amount code : string) (w : world)
  : list (update * world) :=
  [ (Message "/start" (Some "start"), w);
    (Message "Name of Expense" None, w);
    (Message name None, w);
    (Message "Amount in GHS" None, w);
    (Message amount None, w);
    (Message "Apt" None, w);
    (CallbackQuery code, w);
    (Message "Done" None, w) ].

(** The characters that can occur in a text accepted by [Decimal]:
    whitespace, the underscore, digits, signs, the point, and the letters of
    the exponent marker and of the names of the special values. *)
Definition amount_char (c : ascii) : bool :=
  is_space c
  || Ascii.eqb c "_"%char
  || (match digit_val c with Some _ => true | None => false end)
  || str_mem c "+-."
  || str_mem (ascii_lower c) "einfatys".


(* ================================================================== *)
(** * Facts about the dict *)
(* ================================================================== *)

Section DictFacts.
Context {V : Type}.
Implicit Types (d : PyDict.t V) (k : string) (v : V).

Lemma lookup_None_iff d k :
  PyDict.lookup k d = None <-> ~ In k (PyDict.keys d).
Proof.
  induction d as [|[k' v'] r IH]; simpl.
  - tauto.
  - destruct (String.eqb_spec k' k) as [->|Hne].
    + split; [discriminate | intros H; exfalso; apply H; now left].
    + rewrite IH. split.
      * intros H [E|HIn]; [congruence | tauto].
      * intros H HIn. apply H. now right.
Qed.

Lemma lookup_Some_in d k v :
  PyDict.lookup k d = Some v -> In k (PyDict.keys d).
Proof.
  intros H. destruct (in_dec string_dec k (PyDict.keys d)) as [|Hn]; auto.
  apply lookup_None_iff in Hn. congruence.
Qed.

Lemma in_lookup_Some d k :
  In k (PyDict.keys d) -> exists v, PyDict.lookup k d = Some v.
Proof.
  intros H. destruct (PyDict.lookup k d) eqn:E; eauto.
  apply lookup_None_iff in E. contradiction.
Qed.

Lemma contains_true_iff d k :
  PyDict.contains k d = true <-> In k (PyDict.keys d).
Proof.
  unfold PyDict.contains. split.
  - destruct (PyDict.lookup k d) eqn:E; [|discriminate].
    intros _. eapply lookup_Some_in; eauto.
  - intros H. destruct (in_lookup_Some _ _ H) as [v ->]. reflexivity.
Qed.

Lemma lookup_setitem_eq d k v :
  PyDict.lookup k (PyDict.setitem k v d) = Some v.
Proof.
  induction d as [|[k' v'] r IH]; simpl.
  - now rewrite String.eqb_refl.
  - destruct (String.eqb k' k) eqn:E; simpl; rewrite E; auto.
Qed.

Lemma lookup_setitem_neq d k k' v :
  k' <> k -> PyDict.lookup k' (PyDict.setitem k v d) = PyDict.lookup k' d.
Proof.
  intros Hne. induction d as [|[k0 v0] r IH]; simpl.
  - destruct (String.eqb_spec k k'); congruence.
  - destruct (String.eqb_spec k0 k) as [->|]; simpl.
    + destruct (String.eqb_spec k k'); congruence.
    + now rewrite IH.
Qed.

Lemma keys_setitem_in d k v :
  In k (PyDict.keys d) -> PyDict.keys (PyDict.setitem k v d) = PyDict.keys d.
Proof.
  induction d as [|[k0 v0] r IH]; simpl; [tauto|].
  intros [->|HIn].
  - now rewrite String.eqb_refl.
  - destruct (String.eqb k0 k); simpl; [reflexivity|].
    f_equal. now apply IH.
Qed.

Lemma setitem_notin d k v :
  ~ In k (PyDict.keys d) -> PyDict.setitem k v d = (d ++ [(k, v)])%list.
Proof.
  induction d as [|[k0 v0] r IH]; simpl; [reflexivity|].
  intros H. destruct (String.eqb_spec k0 k) as [->|].
  - exfalso. apply H. now left.
  - f_equal. apply IH. tauto.
Qed.

Lemma keys_setitem d k v :
  PyDict.keys (PyDict.setitem k v d)
  = if existsb (String.eqb k) (PyDict.keys d) then PyDict.keys d
    else (PyDict.keys d ++ [k])%list.
Proof.
  destruct (existsb (String.eqb k) (PyDict.keys d)) eqn:E.
  - apply keys_setitem_in. apply existsb_exists in E.
    destruct E as [x [HIn Hx]]. apply String.eqb_eq in Hx. now subst.
  - rewrite setitem_notin.
    + unfold PyDict.keys. now rewrite map_app.
    + intros HIn. assert (existsb (String.eqb k) (PyDict.keys d) = true).
      { apply existsb_exists. exists k. split; auto. apply String.eqb_refl. }
      congruence.
Qed.

Lemma wf_setitem d k v : PyDict.wf d -> PyDict.wf (PyDict.setitem k v d).
Proof.
  unfold PyDict.wf. intros Hwf. rewrite keys_setitem.
  destruct (existsb (String.eqb k) (PyDict.keys d)) eqn:E; auto.
  apply NoDup_app; auto.
  - constructor; [simpl; tauto | constructor].
  - intros x Hx HIn. destruct HIn as [<-|[]].
    assert (existsb (String.eqb k) (PyDict.keys d) = true).
    { apply existsb_exists. exists k. split; auto. apply String.eqb_refl. }
    congruence.
Qed.

Lemma delitem_None_iff d k :
  PyDict.delitem k d = None <-> PyDict.lookup k d = None.
Proof.
  induction d as [|[k0 v0] r IH]; simpl; [tauto|].
  destruct (String.eqb k0 k); [split; discriminate|].
  destruct (PyDict.delitem k r); [|tauto].
  split; [discriminate|]. intros H. apply IH in H. discriminate.
Qed.

Lemma lookup_delitem_neq d d' k k' :
  PyDict.delitem k d = Some d' -> k' <> k ->
  PyDict.lookup k' d' = PyDict.lookup k' d.
Proof.
  revert d'. induction d as [|[k0 v0] r IH]; simpl; [discriminate|].
  intros d' H Hne. destruct (String.eqb_spec k0 k) as [->|].
  - injection H as <-. destruct (String.eqb_spec k k'); congruence.
  - destruct (PyDict.delitem k r) eqn:E; [|discriminate].
    injection H as <-. simpl. now rewrite (IH _ eq_refl Hne).
Qed.

Lemma keys_delitem d d' k :
  PyDict.delitem k d = Some d' ->
  exists l1 l2, PyDict.keys d = (l1 ++ k :: l2)%list /\ PyDict.keys d' = (l1 ++ l2)%list
                /\ ~ In k l1.
Proof.
  revert d'. induction d as [|[k0 v0] r IH]; simpl; [discriminate|].
  intros d' H. destruct (String.eqb_spec k0 k) as [->|Hne].
  - injection H as <-. exists [], (PyDict.keys r). simpl. tauto.
  - destruct (PyDict.delitem k r) eqn:E; [|discriminate].
    injection H as <-. destruct (IH _ eq_refl) as (l1 & l2 & H1 & H2 & H3).
    exists (k0 :: l1), l2. simpl. rewrite H1, H2.
    repeat split; auto. intros [|]; [congruence | tauto].
Qed.

Lemma wf_delitem d d' k :
  PyDict.wf d -> PyDict.delitem k d = Some d' ->
  PyDict.wf d' /\ PyDict.lookup k d' = None.
Proof.
  unfold PyDict.wf. intros Hwf H.
  destruct (keys_delitem _ _ _ H) as (l1 & l2 & H1 & H2 & H3).
  rewrite H1 in Hwf. split.
  - rewrite H2. eapply NoDup_remove_1; eauto.
  - apply lookup_None_iff. rewrite H2. eapply NoDup_remove_2; eauto.
Qed.

End DictFacts.

(** ** Sequences of assignments *)

Section AssignFacts.
Context {V : Type}.
Implicit Types (d : PyDict.t V) (ops : list (string * V)).







End AssignFacts.

(* ================================================================== *)
(** * The running summary *)
(* ================================================================== *)

Lemma str_app_assoc (a b c : string) : (a ++ b) ++ c = a ++ (b ++ c).
Proof. induction a; simpl; congruence. Qed.

Lemma str_app_nil_r (a : string) : a ++ "" = a.
Proof. induction a; simpl; congruence. Qed.

Lemma facts_to_str_eq (ud : user_data_t) :
  facts_to_str ud = LF ++ str_join LF (map fact_line ud) ++ LF.
Proof. reflexivity. Qed.

Lemma str_join_cons (sep x : string) (l : list string) :
  l <> [] -> str_join sep (x :: l) = x ++ sep ++ str_join sep l.
Proof. destruct l; [congruence | reflexivity]. Qed.



(* ================================================================== *)
(** * The exchange-rate client *)
(* ================================================================== *)

Lemma get_exchange_rate_eq (w : world) (c : context) :
  get_exchange_rate w c
  = (c, (let? data := http_get w rate_url in
         let? rates := py_getitem_str data "rates" in
         py_get rates "USD" (PFloat float_one))%result).
Proof.
  unfold get_exchange_rate, bind, ask, lift, rbind.
  destruct (http_get w rate_url) as [data|e]; [|reflexivity].
  destruct (py_getitem_str data "rates"); reflexivity.
Qed.

(** C8. When the payload of the rate service has a ["rates"] object,
    [get_exchange_rate] returns its ["USD"] entry if there is one and the
    float 1.0 otherwise, and changes nothing. *)
Theorem exchange_rate_usd_or_default :
  forall (w : world) (c : context) (payload rates : PyDict.t pyval),
    http_get w rate_url = Ok (PDict payload) ->
    PyDict.lookup "rates" payload = Some (PDict rates) ->
    get_exchange_rate w c
    = (c, Ok (match PyDict.lookup "USD" rates with
              | Some v => v
              | None => PFloat float_one
              end)).
Proof.
  intros w c payload rates Hget Hrates.
  rewrite get_exchange_rate_eq, Hget. simpl. rewrite Hrates. reflexivity.
Qed.

Lemma exchange_rate_usd_or_default_witness :
  snd (get_exchange_rate (sample_world (PDict [("rates", PDict [])]) (Ok PNone))
                         (sample_context []))
  = Ok (PFloat float_one)
  /\ snd (get_exchange_rate
            (sample_world (rates_payload (PInt 2)) (Ok PNone))
            (sample_context []))
     = Ok (PInt 2).
Proof.
  split.
  - rewrite (exchange_rate_usd_or_default
               (sample_world (PDict [("rates", PDict [])]) (Ok PNone))
               (sample_context []) [("rates", PDict [])] []
               eq_refl eq_refl).
    reflexivity.
  - rewrite (exchange_rate_usd_or_default
               (sample_world (rates_payload (PInt 2)) (Ok PNone))
               (sample_context []) [("rates", PDict [("USD", PInt 2)])]
               [("USD", PInt 2)] eq_refl eq_refl).
    reflexivity.
Defined.

(** C10. When the payload has no ["rates"] key, [get_exchange_rate] raises
    instead of returning a default: [KeyError('rates')] for a dict, and some
    exception for any other payload. *)
Theorem exchange_rate_without_rates_raises :
  forall (w : world) (c : context) (payload : pyval),
    http_get w rate_url = Ok payload ->
    has_key "rates" payload = false ->
    (exists e, get_exchange_rate w c = (c, Raise e))
    /\ (forall d, payload = PDict d ->
          get_exchange_rate w c = (c, Raise (KeyError (PStr "rates")))).
Proof.
  intros w c payload Hget Hkey.
  rewrite get_exchange_rate_eq, Hget. cbn [rbind].
  assert (Hd : forall d, payload = PDict d ->
               py_getitem_str payload "rates" = Raise (KeyError (PStr "rates"))).
  { intros d ->. simpl in *. unfold PyDict.contains in Hkey.
    destruct (PyDict.lookup "rates" d); [discriminate | reflexivity]. }
  split.
  - destruct payload as [| | | | | |d]; try (simpl; eauto; fail).
    rewrite (Hd d eq_refl). simpl. eauto.
  - intros d E. rewrite (Hd d E). reflexivity.
Qed.

Lemma exchange_rate_without_rates_raises_witness :
  get_exchange_rate (sample_world (PDict [("error", PStr "quota")]) (Ok PNone))
                    (sample_context [])
  = (sample_context [], Raise (KeyError (PStr "rates"))).
Proof.
  apply (proj2 (exchange_rate_without_rates_raises
                  (sample_world (PDict [("error", PStr "quota")]) (Ok PNone))
                  (sample_context []) (PDict [("error", PStr "quota")])
                  eq_refl eq_refl) [("error", PStr "quota")] eq_refl).
Defined.

(* ================================================================== *)
(** * The record-store client *)
(* ================================================================== *)

Lemma update_airtable_eq name expense_type expense notes apt w c :
  update_airtable name expense_type expense notes apt w c
  = match select_url apt with
    | Raise e => (c, Raise e)
    | Ok url =>
        match float_of_Decimal expense with
        | Raise e => (c, Raise e)
        | Ok f =>
            let r := airtable_request w url name expense_type f notes in
            ({| user_data := user_data c; outbox := outbox c;
                posted := posted c ++ [r] |}, http_post w r)
        end
    end.
Proof.
  unfold update_airtable, bind, ask, lift, requests_post, ret.
  destruct (select_url apt); [|reflexivity].
  destruct (float_of_Decimal expense); [|reflexivity].
  unfold airtable_request. simpl.
  destruct (http_post w _); reflexivity.
Qed.




(* ================================================================== *)
(** * The completion procedure *)
(* ================================================================== *)

Lemma delitem_of_contains {V} (k : string) (d : PyDict.t V) :
  PyDict.contains k d = true -> exists d', PyDict.delitem k d = Some d'.
Proof.
  unfold PyDict.contains. intros H.
  destruct (PyDict.delitem k d) eqn:E; eauto.
  apply delitem_None_iff in E. rewrite E in H. discriminate.
Qed.

Lemma bind_eq {A B} (m : M A) (k : A -> M B) (w : world) (c : context) :
  bind m k w c = match m w c with
                 | (c', Ok a) => k a w c'
                 | (c', Raise e) => (c', Raise e)
                 end.
Proof. reflexivity. Qed.

(** The second statement of [done]. *)
Lemma done_discards_choice (c : context) (w : world) :
  (if PyDict.contains "choice" (user_data c) then del_item "choice"
   else ret tt) w c
  = (with_user_data c (discard_choice (user_data c)), Ok tt).
Proof.
  unfold discard_choice, with_user_data.
  destruct (PyDict.contains "choice" (user_data c)) eqn:E.
  - destruct (delitem_of_contains _ _ E) as [d' Hd'].
    unfold del_item, bind, get_user_data. rewrite Hd'. reflexivity.
  - destruct c; reflexivity.
Qed.

(** [done], statement by statement: the pending choice is dropped; the
    request is prepared; it is posted; the response is inspected; the reply
    is sent and the session cleared. *)
Lemma done_eq (text : string) (command : option string) (w : world)
    (c : context) :
  done (Message text command) w c
  = let ud := discard_choice (user_data c) in
    match prepare_submission w ud with
    | Raise e => (with_user_data c ud, Raise e)
    | Ok req =>
        let c2 := {| user_data := ud; outbox := outbox c;
                     posted := posted c ++ [req] |} in
        match http_post w req with
        | Raise e => (c2, Raise e)
        | Ok response =>
            match response_has_id response with
            | Raise e => (c2, Raise e)
            | Ok ok =>
                ({| user_data := [];
                    outbox := outbox c ++ [completion_reply ok];
                    posted := posted c ++ [req] |}, Ok END)
            end
        end
    end.
Proof.
  unfold done.
  rewrite bind_eq. unfold get_user_data at 1. cbv beta iota.
  rewrite bind_eq, done_discards_choice. cbv beta iota.
  rewrite bind_eq. unfold get_user_data at 1. cbv beta iota.
  cbn [user_data with_user_data].
  set (ud := discard_choice (user_data c)).
  rewrite bind_eq, get_exchange_rate_eq. unfold prepare_submission.
  destruct (http_get w rate_url) as [data|e]; cbn [rbind]; [|reflexivity].
  destruct (py_getitem_str data "rates") as [rates|e]; cbn [rbind];
    [|reflexivity].
  destruct (py_get rates "USD" (PFloat float_one)) as [rate|e]; cbn [rbind];
    [|reflexivity].
  rewrite bind_eq. unfold lift at 1.
  destruct (convert_to_usd _ rate) as [usd|e]; cbn [rbind]; [|reflexivity].
  rewrite bind_eq, update_airtable_eq.
  destruct (select_url _) as [url|e]; cbn [rbind]; [|reflexivity].
  destruct (float_of_Decimal usd) as [f|e]; cbn [rbind]; [|reflexivity].
  cbv zeta. cbn [user_data outbox posted with_user_data].
  destruct (http_post w _) as [response|e]; [|reflexivity].
  rewrite bind_eq. unfold lift at 1.
  destruct (response_has_id response) as [[|]|e]; reflexivity.
Qed.

Lemma lookup_discard_choice (ud : user_data_t) (k : string) :
  k <> "choice" ->
  PyDict.lookup k (discard_choice ud) = PyDict.lookup k ud.
Proof.
  intros Hne. unfold discard_choice.
  destruct (PyDict.contains "choice" ud); [|reflexivity].
  destruct (PyDict.delitem "choice" ud) eqn:E; [|reflexivity].
  eapply lookup_delitem_neq; eauto.
Qed.

Lemma get_discard_choice (ud : user_data_t) (k default : string) :
  k <> "choice" ->
  PyDict.get k default (discard_choice ud) = PyDict.get k default ud.
Proof.
  intros Hne. unfold PyDict.get. now rewrite lookup_discard_choice.
Qed.

Lemma app_one_neq_self {A} (l : list A) (x : A) : l <> (l ++ [x])%list.
Proof.
  intros H. apply (f_equal (@length A)) in H.
  rewrite length_app in H. simpl in H. lia.
Qed.

(** If [done] posted a request, the request is the prepared one. *)
Lemma done_posted (text : string) (command : option string) (w : world)
    (c : context) (req : http_request) :
  posted (fst (done (Message text command) w c)) = (posted c ++ [req])%list ->
  prepare_submission w (discard_choice (user_data c)) = Ok req.
Proof.
  rewrite done_eq. cbv zeta.
  destruct (prepare_submission w _) as [req'|e]; simpl.
  - intros H. f_equal.
    assert (E : (posted c ++ [req'] = posted c ++ [req])%list).
    { destruct (http_post w req') as [response|]; simpl in H; auto.
      destruct (response_has_id response); simpl in H; auto. }
    apply app_inv_head in E. congruence.
  - intros H. exfalso. eapply app_one_neq_self; eauto.
Qed.

(** C1 as stated does not hold: when the store answers [{"records": 5}],
    the inspection [len(response["records"])] raises [TypeError], and the
    session is not cleared although the submission returned a response. *)
Lemma clearing_whenever_response_counterexample :
  ~ (forall text command w c req response,
       posted (fst (done (Message text command) w c))
       = (posted c ++ [req])%list ->
       http_post w req = Ok response ->
       user_data (fst (done (Message text command) w c)) = []).
Proof.
  intros H.
  pose (w := sample_world (rates_payload (PFloat float_one))
                          (Ok (PDict [("records", PInt 5)]))).
  pose (c := sample_context [("Notes", "rent")]).
  assert (E := H "Done" None w c
                 (airtable_request w url_108 "Unknown" "Uncategorized"
                    (FZero false) "rent")
                 (PDict [("records", PInt 5)])
                 ltac:(vm_compute; reflexivity) ltac:(reflexivity)).
  vm_compute in E. discriminate.
Qed.

(** C1, amended.  Once [done] has posted its request: if the store returns
    a response whose inspection evaluates, the matching reply is sent, the
    session data is emptied (so no ["choice"] is left) and the conversation
    ends; if the submission raises, or the inspection of the response
    raises, the exception propagates, no reply is sent and every collected
    field keeps its value. *)
Theorem completion_clears_after_reply :
  forall text command w c req,
    posted (fst (done (Message text command) w c)) = (posted c ++ [req])%list ->
    (forall response ok,
        http_post w req = Ok response ->
        response_has_id response = Ok ok ->
        done (Message text command) w c
        = ({| user_data := [];
              outbox := outbox c ++ [completion_reply ok];
              posted := posted c ++ [req] |}, Ok END))
    /\ (forall e,
          http_post w req = Raise e
          \/ (exists response, http_post w req = Ok response
                               /\ response_has_id response = Raise e) ->
          snd (done (Message text command) w c) = Raise e
          /\ outbox (fst (done (Message text command) w c)) = outbox c
          /\ user_data (fst (done (Message text command) w c))
             = discard_choice (user_data c)
          /\ forall k, k <> "choice" ->
               PyDict.lookup k (user_data (fst (done (Message text command) w c)))
               = PyDict.lookup k (user_data c)).
Proof.
  intros text command w c req Hposted.
  pose proof (done_posted _ _ _ _ _ Hposted) as Hprep.
  rewrite done_eq. cbv zeta. rewrite Hprep. split.
  - intros response ok Hpost Hid. now rewrite Hpost, Hid.
  - intros e [Hpost | [response [Hpost Hid]]].
    + rewrite Hpost. simpl. repeat split; auto.
      intros k Hk. now apply lookup_discard_choice.
    + rewrite Hpost, Hid. simpl. repeat split; auto.
      intros k Hk. now apply lookup_discard_choice.
Qed.

Lemma completion_clears_after_reply_witness :
  let w := sample_world (rates_payload (PFloat float_one))
             (Ok (PDict [("records", PList [PDict [("id", PStr "rec1")]])])) in
  let c := sample_context [("Notes", "rent"); ("choice", "Notes")] in
  user_data (fst (done (Message "Done" None) w c)) = []
  /\ snd (done (Message "Done" None) w c) = Ok END.
Proof.
  intros w c.
  pose proof (proj1 (completion_clears_after_reply "Done" None w c
    (airtable_request w url_108 "Unknown" "Uncategorized" (FZero false) "rent")
    ltac:(vm_compute; reflexivity))
    (PDict [("records", PList [PDict [("id", PStr "rec1")]])]) true
    ltac:(reflexivity) ltac:(reflexivity)) as H.
  rewrite H. split; reflexivity.
Defined.

Lemma prepare_submission_Ok (w : world) (ud : user_data_t)
    (req : http_request) :
  prepare_submission w ud = Ok req ->
  exists rate usd f url,
    snd (get_exchange_rate w (sample_context [])) = Ok rate
    /\ convert_to_usd (parse_amount (PyDict.get "Amount in GHS" "0" ud)) rate
       = Ok usd
    /\ select_url (PyDict.get "Apt" "108" ud) = Ok url
    /\ float_of_Decimal usd = Ok f
    /\ req = airtable_request w url
               (PyDict.get "Name of Expense" "Unknown" ud)
               (PyDict.get "Expense Type" "Uncategorized" ud) f
               (PyDict.get "Notes" "" ud).
Proof.
  unfold prepare_submission. rewrite get_exchange_rate_eq. simpl snd.
  destruct (http_get w rate_url) as [data|]; cbn [rbind]; [|discriminate].
  destruct (py_getitem_str data "rates") as [rates|]; cbn [rbind];
    [|discriminate].
  destruct (py_get rates "USD" _) as [rate|]; cbn [rbind]; [|discriminate].
  destruct (convert_to_usd _ rate) as [usd|] eqn:Husd; cbn [rbind];
    [|discriminate].
  destruct (select_url _) as [url|] eqn:Hurl; cbn [rbind]; [|discriminate].
  destruct (float_of_Decimal usd) as [f|] eqn:Hf; cbn [rbind]; [|discriminate].
  intros H. injection H as <-. exists rate, usd, f, url.
  repeat split; auto.
Qed.

Lemma get_exchange_rate_snd (w : world) (c c' : context) :
  snd (get_exchange_rate w c) = snd (get_exchange_rate w c').
Proof. now rewrite !get_exchange_rate_eq. Qed.

(** C5. The request that [done] posts carries, for each field, the
    collected value or its default: ["Unknown"] for the name,
    ["Uncategorized"] for the expense type, the empty string for the notes,
    the amount parsed from ["0"], and the endpoint of code ["108"]; and
    with no ["Apt"] collected, a completion whose rate fetch and conversion
    succeed does post, to that endpoint. *)
Theorem completion_defaults :
  forall text command w c,
    let ud := user_data c in
    let run := done (Message text command) w c in
    (forall req,
        posted (fst run) = (posted c ++ [req])%list ->
        request_field "Name" req
        = Some (PStr (match PyDict.lookup "Name of Expense" ud with
                      | Some v => v | None => "Unknown" end))
        /\ request_field "Category" req
           = Some (PStr (match PyDict.lookup "Expense Type" ud with
                         | Some v => v | None => "Uncategorized" end))
        /\ request_field "Notes" req
           = Some (PStr (match PyDict.lookup "Notes" ud with
                         | Some v => v | None => "" end))
        /\ select_url (match PyDict.lookup "Apt" ud with
                       | Some v => v | None => "108" end) = Ok (req_url req)
        /\ (PyDict.lookup "Apt" ud = None -> req_url req = url_108)
        /\ exists rate usd f,
             snd (get_exchange_rate w c) = Ok rate
             /\ convert_to_usd
                  (parse_amount (match PyDict.lookup "Amount in GHS" ud with
                                 | Some v => v | None => "0" end)) rate
                = Ok usd
             /\ float_of_Decimal usd = Ok f
             /\ request_field "Expense" req = Some (PFloat f))
    /\ (forall rate usd f,
          PyDict.lookup "Apt" ud = None ->
          snd (get_exchange_rate w c) = Ok rate ->
          convert_to_usd
            (parse_amount (match PyDict.lookup "Amount in GHS" ud with
                           | Some v => v | None => "0" end)) rate = Ok usd ->
          float_of_Decimal usd = Ok f ->
          exists req, posted (fst run) = (posted c ++ [req])%list
                      /\ req_url req = url_108).
Proof.
  intros text command w c ud run. split.
  - intros req Hposted. apply done_posted in Hposted.
    apply prepare_submission_Ok in Hposted.
    destruct Hposted as (rate & usd & f & url & Hrate & Husd & Hurl & Hf & ->).
    rewrite !get_discard_choice in * by discriminate.
    unfold PyDict.get in *. fold ud in Husd, Hurl |- *.
    repeat split; try reflexivity.
    + exact Hurl.
    + intros Hapt. rewrite Hapt in Hurl.
      change (select_url "108") with (Ok (A:=string) url_108) in Hurl.
      injection Hurl as <-. reflexivity.
    + exists rate, usd, f. rewrite (get_exchange_rate_snd w c (sample_context [])).
      auto.
  - intros rate usd f Hapt Hrate Husd Hf. subst run. rewrite done_eq. cbv zeta.
    assert (Hprep : prepare_submission w (discard_choice (user_data c))
                    = Ok (airtable_request w url_108
                            (PyDict.get "Name of Expense" "Unknown" ud)
                            (PyDict.get "Expense Type" "Uncategorized" ud) f
                            (PyDict.get "Notes" "" ud))).
    { unfold prepare_submission.
      rewrite get_exchange_rate_eq in Hrate. simpl in Hrate.
      destruct (http_get w rate_url) as [data|]; cbn [rbind] in *;
        [|discriminate].
      destruct (py_getitem_str data "rates") as [rates|]; cbn [rbind] in *;
        [|discriminate].
      rewrite Hrate. cbn [rbind].
      rewrite !get_discard_choice by discriminate.
      unfold PyDict.get at 1 2. fold ud. rewrite Husd, Hapt. cbn [rbind].
      change (select_url "108") with (Ok (A:=string) url_108). cbn [rbind].
      rewrite Hf. reflexivity. }
    rewrite Hprep.
    exists (airtable_request w url_108
              (PyDict.get "Name of Expense" "Unknown" ud)
              (PyDict.get "Expense Type" "Uncategorized" ud) f
              (PyDict.get "Notes" "" ud)).
    split; [|reflexivity].
    destruct (http_post w _) as [response|]; [|reflexivity].
    destruct (response_has_id response); reflexivity.
Qed.

Lemma completion_defaults_witness :
  let w := sample_world (rates_payload (PFloat float_one)) (Ok PNone) in
  let c := sample_context [] in
  exists req, posted (fst (done (Message "Done" None) w c)) = [req]
              /\ req_url req = url_108.
Proof.
  intros w c.
  apply (proj2 (completion_defaults "Done" None w c)
           (PFloat float_one) (DFin false 0 0) (FZero false));
    vm_compute; reflexivity.
Defined.




(* ================================================================== *)
(** * The conversion to USD *)
(* ================================================================== *)

(** C3 as stated does not hold: with the rate 0.083 of the payload, a
    binary64, and the amount text ["100"], the product computed by [done]
    is not the decimal 8.3. *)
Lemma usd_amount_exactly_8_3_counterexample :
  ~ (exists rate usd,
       snd (get_exchange_rate
              (sample_world (rates_payload (PFloat float_0_083)) (Ok PNone))
              (sample_context [("Amount in GHS", "100")])) = Ok rate
       /\ convert_to_usd (parse_amount "100") rate = Ok usd
       /\ dec_eqb usd decimal_8_3 = true).
Proof.
  intros (rate & usd & Hrate & Husd & Heq).
  vm_compute in Hrate. injection Hrate as <-.
  vm_compute in Husd. injection Husd as <-.
  vm_compute in Heq. discriminate.
Qed.

(** C3, amended.  For the payload [{"rates": {"USD": 0.083}}] and the
    amount text ["100"], the rate is the binary64 nearest to 0.083, whose
    exact decimal expansion has 55 significant digits; the USD amount is 100
    times that expansion rounded to 28 significant digits,
    8.300000000000000432986979604, which is not equal to the decimal 8.3;
    converted for the request it is the binary64 nearest to 8.3. *)
Theorem usd_amount_for_rate_0_083 :
  forall (w : world) (c : context),
    http_get w rate_url = Ok (rates_payload (PFloat float_0_083)) ->
    get_exchange_rate w c = (c, Ok (PFloat float_0_083))
    /\ Decimal (PFloat float_0_083)
       = Ok (DFin false
               8300000000000000432986979603811050765216350555419921875 (-56))
    /\ convert_to_usd (parse_amount "100") (PFloat float_0_083)
       = Ok (DFin false 8300000000000000432986979604 (-27))
    /\ dec_eqb (DFin false 8300000000000000432986979604 (-27)) decimal_8_3
       = false
    /\ float_of_Decimal (DFin false 8300000000000000432986979604 (-27))
       = Ok float_8_3
    /\ (forall text command,
          user_data c = [("Amount in GHS", "100")] ->
          posted (fst (done (Message text command) w c))
          = (posted c ++ [airtable_request w url_108 "Unknown" "Uncategorized"
                            float_8_3 ""])%list).
Proof.
  intros w c Hget. split.
  - rewrite get_exchange_rate_eq, Hget. reflexivity.
  - split; [vm_compute; reflexivity|]. split; [vm_compute; reflexivity|].
    split; [vm_compute; reflexivity|]. split; [vm_compute; reflexivity|].
    intros text command Hud. rewrite done_eq, Hud. cbv zeta.
    assert (Hp : prepare_submission w
                   (discard_choice [("Amount in GHS", "100")])
                 = Ok (airtable_request w url_108 "Unknown" "Uncategorized"
                         float_8_3 "")).
    { unfold prepare_submission. rewrite Hget. vm_compute. reflexivity. }
    rewrite Hp.
    destruct (http_post w _) as [response|]; [|reflexivity].
    destruct (response_has_id response); reflexivity.
Qed.

Lemma usd_amount_for_rate_0_083_witness :
  convert_to_usd (parse_amount "100") (PFloat float_0_083)
  = Ok (DFin false 8300000000000000432986979604 (-27)).
Proof.
  apply (usd_amount_for_rate_0_083
           (sample_world (rates_payload (PFloat float_0_083)) (Ok PNone))
           (sample_context [])).
  reflexivity.
Defined.

(* ================================================================== *)
(** * The conversation handler *)
(* ================================================================== *)

Lemma String_eqb_neq (a b : string) : a <> b -> String.eqb a b = false.
Proof. intros H. now apply String.eqb_neq. Qed.

Lemma done_dispatch (str_format : string -> string -> string -> result string)
    (st : Z) (command : option string) :
  check_update (conv_handler str_format) (Some st) (Message "Done" command)
  = Some (MessageHandler (Regex ["Done"]) done).
Proof.
  unfold check_update, conv_handler. cbn [states fallbacks states_get].
  destruct (CHOOSING =? st)%Z; [destruct command; reflexivity|].
  destruct (TYPING_CHOICE =? st)%Z; [reflexivity|].
  destruct (TYPING_APT =? st)%Z; [reflexivity|].
  destruct (TYPING_REPLY =? st)%Z; [destruct command; reflexivity|].
  reflexivity.
Qed.

(** C2 as stated does not hold: a ["Done"] message that arrives while a
    free-text reply is awaited is given to [done]. *)
Lemma done_only_when_choosing_counterexample :
  ~ (forall st, In st [TYPING_REPLY; TYPING_CHOICE; TYPING_APT] ->
       forall h,
         check_update (conv_handler format_plain) (Some st)
                      (Message "Done" None) = Some h ->
         handler_callback h <> done).
Proof.
  intros H.
  apply (H TYPING_REPLY (or_introl eq_refl)
           (MessageHandler (Regex ["Done"]) done) eq_refl).
  reflexivity.
Qed.

(** C2, amended.  In every state of a running conversation, the three
    awaiting states included, a ["Done"] message is handled by the fallback
    and runs [done]: the conversation ends when [done] returns and stays in
    its state when [done] raises.  Only when no conversation is running is
    the message ignored. *)
Theorem done_runs_from_every_state :
  forall (str_format : string -> string -> string -> result string)
         (st : Z) (command : option string) (w : world) (c : context),
    check_update (conv_handler str_format) (Some st) (Message "Done" command)
    = Some (MessageHandler (Regex ["Done"]) done)
    /\ handle_update (conv_handler str_format) (Some st)
         (Message "Done" command) w c
       = (match snd (done (Message "Done" command) w c) with
          | Ok _ => None
          | Raise _ => Some st
          end,
          fst (done (Message "Done" command) w c),
          match snd (done (Message "Done" command) w c) with
          | Ok _ => None
          | Raise e => Some e
          end)
    /\ handle_update (conv_handler str_format) None (Message "Done" None) w c
       = (None, c, None).
Proof.
  intros sf st command w c. split; [apply done_dispatch|]. split.
  - unfold handle_update. rewrite done_dispatch. cbn [handler_callback].
    rewrite done_eq. cbv zeta.
    destruct (prepare_submission w _) as [req|]; [|reflexivity].
    destruct (http_post w req) as [response|]; [|reflexivity].
    destruct (response_has_id response); reflexivity.
  - reflexivity.
Qed.

(** C9. In the state that awaits a free-text reply, a text message (not a
    command, not ["Done"]) that finds no ["choice"] in the session data is
    answered with "I didn't receive the category. Please try again.";
    the session data is left as it was and the state becomes [CHOOSING]. *)
Theorem free_text_without_pending_field :
  forall (str_format : string -> string -> string -> result string)
         (text : string) (w : world) (c : context),
    text <> "" ->
    regex_search ["Done"] text = false ->
    PyDict.lookup "choice" (user_data c) = None ->
    handle_update (conv_handler str_format) (Some TYPING_REPLY)
      (Message text None) w c
    = (Some CHOOSING,
       {| user_data := user_data c;
          outbox := outbox c ++
            [{| msg_text := "I didn't receive the category. Please try again.";
                msg_markup := markup |}];
          posted := posted c |},
       None).
Proof.
  intros sf text w c Hne Hdone Hchoice.
  unfold handle_update, check_update, conv_handler.
  cbn [states fallbacks states_get first_match find handler_check
       TYPING_REPLY CHOOSING TYPING_CHOICE TYPING_APT Z.eqb Pos.eqb].
  cbn [filter_message]. rewrite Hdone, (String_eqb_neq _ _ Hne).
  cbn [negb andb orb handler_callback].
  unfold received_information.
  rewrite bind_eq. unfold get_user_data at 1. cbv beta iota.
  rewrite bind_eq. cbn [message_text ret]. cbv beta iota.
  rewrite Hchoice. reflexivity.
Qed.

Lemma free_text_without_pending_field_witness :
  fst (fst (handle_update (conv_handler format_plain) (Some TYPING_REPLY)
              (Message "50" None)
              (sample_world PNone (Ok PNone)) (sample_context [])))
  = Some CHOOSING.
Proof.
  rewrite (free_text_without_pending_field format_plain "50"
             (sample_world PNone (Ok PNone)) (sample_context []));
    [reflexivity | discriminate | reflexivity | reflexivity].
Defined.


(* ================================================================== *)
(** * Further properties of the program *)
(* ================================================================== *)

(** ** The lines of the running summary *)

Lemma str_split_not_nil (sep : ascii) (s : string) : str_split sep s <> [].
Proof.
  destruct s as [|c s]; simpl; [discriminate|].
  destruct (Ascii.eqb c sep); [discriminate|].
  destruct (str_split sep s); discriminate.
Qed.

Lemma str_mem_app (c : ascii) (a b : string) :
  str_mem c (a ++ b) = str_mem c a || str_mem c b.
Proof.
  induction a as [|x a IH]; simpl; [reflexivity|].
  now rewrite IH, orb_assoc.
Qed.

Lemma str_split_app (sep : ascii) (a s : string) :
  str_mem sep a = false ->
  str_split sep (a ++ s)
  = match str_split sep s with
    | w :: ws => (a ++ w) :: ws
    | [] => [a]
    end.
Proof.
  induction a as [|x a IH]; simpl; intros H.
  - destruct (str_split sep s) eqn:E; [|reflexivity].
    exfalso. eapply str_split_not_nil; eauto.
  - apply orb_false_elim in H. destruct H as [Hx Ha].
    rewrite Hx, (IH Ha).
    destruct (str_split sep s); reflexivity.
Qed.

Lemma str_split_join_LF (l : list string) :
  l <> [] ->
  Forall (fun x => str_mem "010"%char x = false) l ->
  str_split "010"%char (str_join LF l ++ LF) = (l ++ [""])%list.
Proof.
  induction l as [|x r IH]; [congruence|]. intros _ Hall.
  inversion Hall as [|? ? Hx Hr]; subst.
  destruct r as [|y r'].
  - simpl str_join. rewrite (str_split_app _ _ _ Hx). simpl.
    now rewrite str_app_nil_r.
  - rewrite str_join_cons by discriminate.
    rewrite !str_app_assoc, (str_split_app _ _ _ Hx).
    change (LF ++ str_join LF (y :: r') ++ LF)
      with (String "010"%char (str_join LF (y :: r') ++ LF)).
    cbn [str_split]. rewrite Ascii.eqb_refl.
    rewrite IH by (auto; discriminate).
    now rewrite str_app_nil_r.
Qed.

(** X1. When no collected key or value contains a newline and at least one
    field is collected, the running summary splits at newlines into an
    empty line, exactly one line ["<key> - <value>"] per field in the order
    of the dict, and an empty line. *)
Theorem summary_has_one_line_per_field :
  forall ud : user_data_t,
    ud <> [] ->
    (forall k v, In (k, v) ud ->
       str_mem "010"%char k = false /\ str_mem "010"%char v = false) ->
    str_split "010"%char (facts_to_str ud)
    = ("" :: map fact_line ud ++ [""])%list
    /\ length (str_split "010"%char (facts_to_str ud)) = length ud + 2.
Proof.
  intros ud Hne Hall.
  assert (E : str_split "010"%char (facts_to_str ud)
              = ("" :: map fact_line ud ++ [""])%list).
  { rewrite facts_to_str_eq.
    change (LF ++ str_join LF (map fact_line ud) ++ LF)
      with (String "010"%char (str_join LF (map fact_line ud) ++ LF)).
    cbn [str_split]. rewrite Ascii.eqb_refl. f_equal.
    apply str_split_join_LF.
    - destruct ud; [congruence | discriminate].
    - apply Forall_forall. intros x Hx. apply in_map_iff in Hx.
      destruct Hx as [[k v] [<- HIn]]. destruct (Hall k v HIn) as [Hk Hv].
      unfold fact_line. simpl fst. simpl snd.
      rewrite !str_mem_app, Hk, Hv. reflexivity. }
  split; [exact E|].
  rewrite E. simpl. rewrite length_app, length_map. simpl. lia.
Qed.

Lemma summary_has_one_line_per_field_witness :
  str_split "010"%char
    (facts_to_str [("Notes", "rent"); ("Apt", "103")])
  = [""; "Notes - rent"; "Apt - 103"; ""].
Proof.
  apply (summary_has_one_line_per_field [("Notes", "rent"); ("Apt", "103")]).
  - discriminate.
  - intros k v [H|[H|[]]]; injection H as <- <-; split; reflexivity.
Defined.

(** ** Storing a free-text reply *)

Lemma reply_dispatch
    (str_format : string -> string -> string -> result string)
    (text : string) :
  text <> "" ->
  regex_search ["Done"] text = false ->
  check_update (conv_handler str_format) (Some TYPING_REPLY)
               (Message text None)
  = Some (MessageHandler (f_and TEXT (f_not (f_or COMMAND (Regex ["Done"]))))
                         received_information).
Proof.
  intros Hne Hdone. unfold check_update, conv_handler.
  cbn [states fallbacks states_get first_match find handler_check
       TYPING_REPLY CHOOSING TYPING_CHOICE TYPING_APT Z.eqb Pos.eqb].
  cbn [filter_message]. rewrite Hdone, (String_eqb_neq _ _ Hne). reflexivity.
Qed.

Lemma received_information_eq (text : string) (command : option string)
    (w : world) (c : context) :
  received_information (Message text command) w c
  = match PyDict.lookup "choice" (user_data c) with
    | Some (String c0 rest) =>
        let ud1 := PyDict.setitem (String c0 rest) text (user_data c) in
        match PyDict.delitem "choice" ud1 with
        | Some ud2 =>
            ({| user_data := ud2;
                outbox := outbox c ++ [summary_reply ud2];
                posted := posted c |}, Ok CHOOSING)
        | None => (with_user_data c ud1, Raise (KeyError (PStr "choice")))
        end
    | _ =>
        ({| user_data := user_data c;
            outbox := outbox c ++
              [{| msg_text := "I didn't receive the category. Please try again.";
                  msg_markup := markup |}];
            posted := posted c |}, Ok CHOOSING)
    end.
Proof.
  unfold received_information.
  rewrite bind_eq. unfold get_user_data at 1. cbv beta iota.
  rewrite bind_eq. cbn [message_text ret]. cbv beta iota.
  destruct (PyDict.lookup "choice" (user_data c)) as [[|c0 rest]|];
    [reflexivity| |reflexivity].
  rewrite bind_eq. unfold set_item at 1. rewrite bind_eq.
  unfold get_user_data at 1. cbv beta iota.
  unfold put_user_data at 1. cbv beta iota.
  rewrite bind_eq. unfold del_item at 1. rewrite bind_eq.
  unfold get_user_data at 1. cbv beta iota. cbn [user_data outbox posted].
  cbv zeta. unfold with_user_data.
  destruct (PyDict.delitem "choice" _) as [ud2|]; [|reflexivity].
  reflexivity.
Qed.

(** X2. In the state that awaits a free-text reply, a text message that is
    neither empty nor ["Done"], arriving while the field [field] is pending,
    stores the text under [field], removes the pending marker, leaves every
    other field as it was, answers with the summary of the new session data
    and returns to [CHOOSING]; nothing is posted. *)
Theorem pending_field_is_stored :
  forall (str_format : string -> string -> string -> result string)
         (text field : string) (w : world) (c : context),
    text <> "" ->
    regex_search ["Done"] text = false ->
    PyDict.lookup "choice" (user_data c) = Some field ->
    field <> "" -> field <> "choice" ->
    PyDict.wf (user_data c) ->
    exists ud',
      handle_update (conv_handler str_format) (Some TYPING_REPLY)
        (Message text None) w c
      = (Some CHOOSING,
         {| user_data := ud';
            outbox := outbox c ++ [summary_reply ud'];
            posted := posted c |}, None)
      /\ PyDict.lookup field ud' = Some text
      /\ PyDict.lookup "choice" ud' = None
      /\ (forall k, k <> field -> k <> "choice" ->
            PyDict.lookup k ud' = PyDict.lookup k (user_data c))
      /\ PyDict.wf ud'.
Proof.
  intros sf text field w c Hne Hdone Hchoice Hf1 Hf2 Hwf.
  unfold handle_update. rewrite (reply_dispatch sf text Hne Hdone).
  cbn [handler_callback]. rewrite received_information_eq, Hchoice.
  destruct field as [|c0 rest]; [congruence|]. cbv zeta.
  set (ud1 := PyDict.setitem (String c0 rest) text (user_data c)).
  assert (Hc1 : PyDict.lookup "choice" ud1 = Some (String c0 rest)).
  { unfold ud1. rewrite lookup_setitem_neq by congruence. exact Hchoice. }
  destruct (PyDict.delitem "choice" ud1) as [ud2|] eqn:Hdel.
  - exists ud2. split; [reflexivity|].
    destruct (wf_delitem ud1 ud2 "choice") as [Hwf2 Hnone]; auto.
    { unfold ud1. now apply wf_setitem. }
    split; [|split; [exact Hnone|split; [|exact Hwf2]]].
    + rewrite (lookup_delitem_neq _ _ _ _ Hdel) by congruence.
      apply lookup_setitem_eq.
    + intros k Hk1 Hk2. rewrite (lookup_delitem_neq _ _ _ _ Hdel) by auto.
      unfold ud1. now apply lookup_setitem_neq.
  - apply delitem_None_iff in Hdel. congruence.
Qed.

Lemma pending_field_is_stored_witness :
  exists ud',
    handle_update (conv_handler format_plain) (Some TYPING_REPLY)
      (Message "50" None) (sample_world PNone (Ok PNone))
      (sample_context [("Notes", "rent"); ("choice", "Amount in GHS")])
    = (Some CHOOSING,
       {| user_data := ud'; outbox := [summary_reply ud']; posted := [] |},
       None)
    /\ PyDict.lookup "Amount in GHS" ud' = Some "50".
Proof.
  destruct (pending_field_is_stored format_plain "50" "Amount in GHS"
              (sample_world PNone (Ok PNone))
              (sample_context [("Notes", "rent"); ("choice", "Amount in GHS")]))
    as (ud' & H1 & H2 & _); try discriminate; try reflexivity.
  - unfold PyDict.wf. simpl. repeat constructor; simpl; intuition discriminate.
  - exists ud'. split; assumption.
Defined.

(** ** Selecting a field *)

(** X3. In the state [CHOOSING]: the label ["Expense Type"] shows the eight
    expense types as inline buttons and awaits a choice; ["Apt"] shows the
    two apartment options; each of the three other labels is recorded as the
    pending field and a free-text reply is awaited; a message that is
    neither a label nor ["Done"], and any button press, changes nothing. *)
Theorem field_selection :
  forall (str_format : string -> string -> string -> result string)
         (command : option string) (w : world) (c : context),
    let step u := handle_update (conv_handler str_format) (Some CHOOSING) u w c in
    step (Message "Expense Type" command)
    = (Some TYPING_CHOICE,
       {| user_data := user_data c;
          outbox := outbox c ++
            [{| msg_text := "Please choose an expense type from the list below:";
                msg_markup :=
                  InlineKeyboard (map (fun e => [(e, e)]) expense_types) |}];
          posted := posted c |}, None)
    /\ step (Message "Apt" command)
       = (Some TYPING_APT,
          {| user_data := user_data c;
             outbox := outbox c ++
               [{| msg_text := "Please choose an Apt option from the list below:";
                   msg_markup :=
                     InlineKeyboard [[("Option 103", "103")];
                                     [("Option 108", "108")]] |}];
             posted := posted c |}, None)
    /\ (forall text,
          In text ["Name of Expense"; "Amount in GHS"; "Notes"] ->
          step (Message text command)
          = (Some TYPING_REPLY,
             {| user_data := PyDict.setitem "choice" text (user_data c);
                outbox := outbox c ++
                  [{| msg_text := "Your " ++ str_lower text
                        ++ "? Yes, I would love to hear about that!";
                      msg_markup := NoKeyboard |}];
                posted := posted c |}, None))
    /\ (forall text,
          regex_search field_labels text = false ->
          regex_search ["Done"] text = false ->
          step (Message text command) = (Some CHOOSING, c, None))
    /\ (forall data, step (CallbackQuery data) = (Some CHOOSING, c, None)).
Proof.
  intros sf command w c step. subst step. cbv beta.
  split; [reflexivity|]. split; [reflexivity|]. split; [|split].
  - intros text [<-|[<-|[<-|[]]]]; reflexivity.
  - intros text Hlabels Hdone. unfold handle_update, check_update, conv_handler.
    cbn [states fallbacks states_get first_match find handler_check
         TYPING_REPLY CHOOSING TYPING_CHOICE TYPING_APT Z.eqb Pos.eqb].
    cbn [filter_message]. fold field_labels. rewrite Hlabels, Hdone.
    rewrite !andb_false_r. reflexivity.
  - intros data. reflexivity.
Qed.

Lemma field_selection_witness :
  handle_update (conv_handler format_plain) (Some CHOOSING)
    (Message "hello" None) (sample_world PNone (Ok PNone)) (sample_context [])
  = (Some CHOOSING, sample_context [], None).
Proof.
  apply (proj1 (proj2 (proj2 (proj2
           (field_selection format_plain None (sample_world PNone (Ok PNone))
              (sample_context [])))))); reflexivity.
Defined.

(** ** Choosing from a list *)

(** X4. A button press while an expense type (an apartment) is awaited
    stores the button's data under ["Expense Type"] (["Apt"]), whatever the
    data is.  When [str.format] renders the acknowledgement, it is sent and
    the state becomes [CHOOSING]; when it raises, the value has been stored
    all the same, nothing is sent and the state is unchanged.  A text
    message other than ["Done"] is ignored in these two states. *)
Theorem selection_is_stored :
  forall (str_format : string -> string -> string -> result string)
         (data : string) (w : world) (c : context),
    let ch := conv_handler str_format in
    let ud1 := PyDict.setitem "Expense Type" data (user_data c) in
    let ud2 := PyDict.setitem "Apt" data (user_data c) in
    handle_update ch (Some TYPING_CHOICE) (CallbackQuery data) w c
    = match str_format (expense_type_template ud1)
                       "selected_expense_type" data with
      | Ok text =>
          (Some CHOOSING,
           {| user_data := ud1;
              outbox := outbox c ++
                [{| msg_text := text;
                    msg_markup := ReplyKeyboard reply_keyboard |}];
              posted := posted c |}, None)
      | Raise e => (Some TYPING_CHOICE, with_user_data c ud1, Some e)
      end
    /\ handle_update ch (Some TYPING_APT) (CallbackQuery data) w c
       = match str_format (apt_template ud2) "selected_apt" data with
         | Ok text =>
             (Some CHOOSING,
              {| user_data := ud2;
                 outbox := outbox c ++
                   [{| msg_text := text;
                       msg_markup := ReplyKeyboard reply_keyboard |}];
                 posted := posted c |}, None)
         | Raise e => (Some TYPING_APT, with_user_data c ud2, Some e)
         end
    /\ (forall text command st,
          st = TYPING_CHOICE \/ st = TYPING_APT ->
          regex_search ["Done"] text = false ->
          handle_update ch (Some st) (Message text command) w c
          = (Some st, c, None)).
Proof.
  intros sf data w c ch ud1 ud2. subst ch. split; [|split].
  - unfold handle_update. cbn [check_update conv_handler states fallbacks
      states_get first_match find handler_check handler_callback
      TYPING_REPLY CHOOSING TYPING_CHOICE TYPING_APT Z.eqb Pos.eqb].
    unfold expense_type_selected.
    rewrite bind_eq. cbn [query_data ret]. cbv beta iota.
    rewrite bind_eq. unfold set_item at 1. rewrite bind_eq.
    unfold get_user_data at 1, put_user_data at 1. cbv beta iota.
    rewrite bind_eq. unfold get_user_data at 1. cbv beta iota.
    cbn [user_data outbox posted]. rewrite bind_eq. unfold lift at 1.
    fold ud1. fold (expense_type_template ud1).
    destruct (sf (expense_type_template ud1) "selected_expense_type" data);
      reflexivity.
  - unfold handle_update. cbn [check_update conv_handler states fallbacks
      states_get first_match find handler_check handler_callback
      TYPING_REPLY CHOOSING TYPING_CHOICE TYPING_APT Z.eqb Pos.eqb].
    unfold apt_selected.
    rewrite bind_eq. cbn [query_data ret]. cbv beta iota.
    rewrite bind_eq. unfold set_item at 1. rewrite bind_eq.
    unfold get_user_data at 1, put_user_data at 1. cbv beta iota.
    rewrite bind_eq. unfold get_user_data at 1. cbv beta iota.
    cbn [user_data outbox posted]. rewrite bind_eq. unfold lift at 1.
    fold ud2. fold (apt_template ud2).
    destruct (sf (apt_template ud2) "selected_apt" data); reflexivity.
  - intros text command st [-> | ->] Hdone;
      unfold handle_update; cbn [check_update conv_handler states fallbacks
        states_get first_match find handler_check handler_callback
        TYPING_REPLY CHOOSING TYPING_CHOICE TYPING_APT Z.eqb Pos.eqb];
      cbn [filter_message]; rewrite Hdone, andb_false_r; reflexivity.
Qed.

Lemma selection_is_stored_witness :
  handle_update (conv_handler format_plain) (Some TYPING_APT)
    (Message "hello" None) (sample_world PNone (Ok PNone)) (sample_context [])
  = (Some TYPING_APT, sample_context [], None).
Proof.
  apply (proj2 (proj2 (selection_is_stored format_plain "103"
                         (sample_world PNone (Ok PNone)) (sample_context [])))).
  - right. reflexivity.
  - reflexivity.
Defined.

(** ** Failures of the completion procedure *)

Lemma done_before_post (text : string) (command : option string) (w : world)
    (c : context) (e : exn) :
  prepare_submission w (discard_choice (user_data c)) = Raise e ->
  done (Message text command) w c
  = (with_user_data c (discard_choice (user_data c)), Raise e).
Proof. intros H. rewrite done_eq. cbv zeta. now rewrite H. Qed.

Lemma handle_done_eq
    (str_format : string -> string -> string -> result string)
    (st : Z) (command : option string) (w : world) (c : context) :
  handle_update (conv_handler str_format) (Some st) (Message "Done" command)
    w c
  = (match snd (done (Message "Done" command) w c) with
     | Ok _ => None
     | Raise _ => Some st
     end,
     fst (done (Message "Done" command) w c),
     match snd (done (Message "Done" command) w c) with
     | Ok _ => None
     | Raise e => Some e
     end).
Proof.
  unfold handle_update. rewrite done_dispatch. cbn [handler_callback].
  rewrite done_eq. cbv zeta.
  destruct (prepare_submission w _) as [req|]; [|reflexivity].
  destruct (http_post w req) as [response|]; [|reflexivity].
  destruct (response_has_id response); reflexivity.
Qed.

Lemma handle_reply_without_choice
    (str_format : string -> string -> string -> result string)
    (text : string) (w : world) (c : context) :
  text <> "" ->
  regex_search ["Done"] text = false ->
  PyDict.lookup "choice" (user_data c) = None ->
  handle_update (conv_handler str_format) (Some TYPING_REPLY)
    (Message text None) w c
  = (Some CHOOSING,
     {| user_data := user_data c;
        outbox := outbox c ++
          [{| msg_text := "I didn't receive the category. Please try again.";
              msg_markup := markup |}];
        posted := posted c |}, None).
Proof.
  intros Hne Hdone Hchoice. unfold handle_update.
  rewrite (reply_dispatch str_format text Hne Hdone). cbn [handler_callback].
  rewrite received_information_eq, Hchoice. reflexivity.
Qed.

Lemma lookup_choice_discard (ud : user_data_t) :
  PyDict.wf ud -> PyDict.lookup "choice" (discard_choice ud) = None.
Proof.
  intros Hwf. unfold discard_choice.
  destruct (PyDict.contains "choice" ud) eqn:E.
  - destruct (PyDict.delitem "choice" ud) eqn:Hdel.
    + eapply wf_delitem; eauto.
    + now apply delitem_None_iff.
  - unfold PyDict.contains in E.
    destruct (PyDict.lookup "choice" ud); [discriminate|auto].
Qed.

(** X5. When the rate service fails, [done] raises the same exception
    before anything is posted or sent; every collected field keeps its
    value, only the pending marker is dropped, and the conversation stays in
    its state.  A text sent afterwards in the state that awaits a free-text
    reply therefore finds no pending field and is answered with the "try
    again" message. *)
Theorem rate_failure_keeps_session :
  forall (str_format : string -> string -> string -> result string)
         (command : option string) (w : world) (c : context) (e : exn) (st : Z),
    http_get w rate_url = Raise e ->
    let c' := with_user_data c (discard_choice (user_data c)) in
    handle_update (conv_handler str_format) (Some st) (Message "Done" command)
      w c = (Some st, c', Some e)
    /\ (forall k, k <> "choice" ->
          PyDict.lookup k (user_data c') = PyDict.lookup k (user_data c))
    /\ (forall text w',
          PyDict.wf (user_data c) ->
          text <> "" -> regex_search ["Done"] text = false ->
          handle_update (conv_handler str_format) (Some TYPING_REPLY)
            (Message text None) w' c'
          = (Some CHOOSING,
             {| user_data := user_data c';
                outbox := outbox c ++
                  [{| msg_text :=
                        "I didn't receive the category. Please try again.";
                      msg_markup := markup |}];
                posted := posted c |}, None)).
Proof.
  intros sf command w c e st Hget c'.
  assert (Hprep : prepare_submission w (discard_choice (user_data c)) = Raise e).
  { unfold prepare_submission. now rewrite Hget. }
  split; [|split].
  - rewrite handle_done_eq, (done_before_post _ _ _ _ _ Hprep). reflexivity.
  - intros k Hk. now apply lookup_discard_choice.
  - intros text w' Hwf Hne Hdone.
    apply (handle_reply_without_choice sf text w' c' Hne Hdone).
    now apply lookup_choice_discard.
Qed.

Lemma rate_failure_keeps_session_witness :
  handle_update (conv_handler format_plain) (Some TYPING_REPLY)
    (Message "Done" None)
    {| http_get := fun _ => Raise (RemoteError "connection");
       http_post := fun _ => Ok PNone;
       now_month := "November"; now_date := "2026-11-04" |}
    (sample_context [("Apt", "103"); ("choice", "Notes")])
  = (Some TYPING_REPLY, sample_context [("Apt", "103")],
     Some (RemoteError "connection")).
Proof.
  apply (rate_failure_keeps_session format_plain None
           {| http_get := fun _ => Raise (RemoteError "connection");
              http_post := fun _ => Ok PNone;
              now_month := "November"; now_date := "2026-11-04" |}
           (sample_context [("Apt", "103"); ("choice", "Notes")])
           (RemoteError "connection") TYPING_REPLY eq_refl).
Defined.

Lemma select_url_other (apt : string) :
  apt <> "108" -> apt <> "103" ->
  select_url apt = Raise (ValueError "Invalid apt value").
Proof.
  intros H108 H103. unfold select_url.
  destruct (String.eqb_spec apt "108"); [contradiction|].
  destruct (String.eqb_spec apt "103"); [contradiction|]. reflexivity.
Qed.

Lemma prepare_submission_after_rate (w : world) (ud : user_data_t)
    (rate : pyval) :
  snd (get_exchange_rate w (sample_context [])) = Ok rate ->
  prepare_submission w ud
  = (let? amount_usd :=
       convert_to_usd (parse_amount (PyDict.get "Amount in GHS" "0" ud)) rate in
     let? url := select_url (PyDict.get "Apt" "108" ud) in
     let? expense_float := float_of_Decimal amount_usd in
     Ok (airtable_request w url
           (PyDict.get "Name of Expense" "Unknown" ud)
           (PyDict.get "Expense Type" "Uncategorized" ud)
           expense_float
           (PyDict.get "Notes" "" ud)))%result.
Proof.
  rewrite get_exchange_rate_eq. unfold prepare_submission. simpl snd.
  destruct (http_get w rate_url) as [data|]; cbn [rbind]; [|discriminate].
  destruct (py_getitem_str data "rates") as [rates|]; cbn [rbind];
    [|discriminate].
  intros ->. reflexivity.
Qed.

(** X6. When the session holds an ["Apt"] value other than ["103"] and
    ["108"] (the button handler stores any data it receives), a completion
    whose rate fetch and conversion succeed raises
    [ValueError("Invalid apt value")]: nothing is posted, no reply is sent,
    the collected fields are kept and the conversation stays in its
    state. *)
Theorem invalid_apt_blocks_completion :
  forall (str_format : string -> string -> string -> result string)
         (command : option string) (w : world) (c : context)
         (apt : string) (rate : pyval) (usd : decimal) (st : Z),
    PyDict.lookup "Apt" (user_data c) = Some apt ->
    apt <> "108" -> apt <> "103" ->
    snd (get_exchange_rate w c) = Ok rate ->
    convert_to_usd
      (parse_amount (PyDict.get "Amount in GHS" "0" (user_data c))) rate
    = Ok usd ->
    handle_update (conv_handler str_format) (Some st) (Message "Done" command)
      w c
    = (Some st, with_user_data c (discard_choice (user_data c)),
       Some (ValueError "Invalid apt value")).
Proof.
  intros sf command w c apt rate usd st Hapt H108 H103 Hrate Husd.
  rewrite handle_done_eq.
  rewrite (done_before_post _ _ _ _ (ValueError "Invalid apt value"));
    [reflexivity|].
  rewrite (prepare_submission_after_rate w _ rate)
    by (now rewrite (get_exchange_rate_snd w _ c)).
  rewrite !get_discard_choice by discriminate.
  rewrite Husd. cbn [rbind]. unfold PyDict.get at 1. rewrite Hapt.
  now rewrite (select_url_other apt H108 H103).
Qed.

Lemma invalid_apt_blocks_completion_witness :
  handle_update (conv_handler format_plain) (Some CHOOSING)
    (Message "Done" None)
    (sample_world (rates_payload (PFloat float_one)) (Ok PNone))
    (sample_context [("Apt", "Electric")])
  = (Some CHOOSING, sample_context [("Apt", "Electric")],
     Some (ValueError "Invalid apt value")).
Proof.
  apply (invalid_apt_blocks_completion format_plain None
           (sample_world (rates_payload (PFloat float_one)) (Ok PNone))
           (sample_context [("Apt", "Electric")]) "Electric"
           (PFloat float_one) (DFin false 0 0) CHOOSING);
    try discriminate; reflexivity.
Defined.

(** X7. An amount text that [Decimal] reads as a signaling NaN (such as
    ["sNaN"]) is not coerced to zero: once the rate is fetched the
    conversion raises, so [done] raises before anything is posted or sent
    and the session keeps its fields; when the rate itself converts to a
    decimal the exception is [InvalidOperation]. *)
Theorem signaling_nan_amount_raises :
  forall (text : string) (command : option string) (w : world) (c : context)
         (amount : string) (neg : bool) (payload : Z) (rate : pyval),
    PyDict.lookup "Amount in GHS" (user_data c) = Some amount ->
    Decimal (PStr amount) = Ok (DNaN neg true payload) ->
    snd (get_exchange_rate w c) = Ok rate ->
    (exists e,
        done (Message text command) w c
        = (with_user_data c (discard_choice (user_data c)), Raise e))
    /\ (forall r, Decimal rate = Ok r ->
          done (Message text command) w c
          = (with_user_data c (discard_choice (user_data c)),
             Raise InvalidOperation)).
Proof.
  intros text command w c amount neg payload rate Hamount Hdec Hrate.
  assert (Hprep : forall ud,
    PyDict.get "Amount in GHS" "0" ud = amount ->
    prepare_submission w ud
    = (let? _ := convert_to_usd (DNaN neg true payload) rate in
       Raise InvalidOperation)%result
    \/ exists e, prepare_submission w ud = Raise e).
  { intros ud Hud.
    rewrite (prepare_submission_after_rate w ud rate)
      by (now rewrite (get_exchange_rate_snd w _ c)).
    rewrite Hud. unfold parse_amount. rewrite Hdec.
    unfold convert_to_usd. destruct (Decimal rate) as [r|e]; cbn [rbind].
    - left. destruct r as [? ? ?| ? | ? [|] ?]; reflexivity.
    - right. eauto. }
  assert (Hget : PyDict.get "Amount in GHS" "0" (discard_choice (user_data c))
                 = amount).
  { rewrite get_discard_choice by discriminate. unfold PyDict.get.
    now rewrite Hamount. }
  split.
  - destruct (Hprep _ Hget) as [H|[e H]].
    + unfold convert_to_usd in H.
      destruct (Decimal rate) as [r|e]; cbn [rbind] in H.
      * exists InvalidOperation. apply done_before_post. rewrite H.
        destruct r as [? ? ?| ? | ? [|] ?]; reflexivity.
      * exists e. now apply done_before_post.
    + exists e. now apply done_before_post.
  - intros r Hr. apply done_before_post.
    rewrite (prepare_submission_after_rate w _ rate)
      by (now rewrite (get_exchange_rate_snd w _ c)).
    rewrite Hget. unfold parse_amount. rewrite Hdec.
    unfold convert_to_usd. rewrite Hr. cbn [rbind].
    destruct r as [? ? ?| ? | ? [|] ?]; reflexivity.
Qed.

Lemma signaling_nan_amount_raises_witness :
  done (Message "Done" None)
    (sample_world (rates_payload (PFloat float_one)) (Ok PNone))
    (sample_context [("Amount in GHS", "sNaN")])
  = (sample_context [("Amount in GHS", "sNaN")], Raise InvalidOperation).
Proof.
  apply (proj2 (signaling_nan_amount_raises "Done" None
                  (sample_world (rates_payload (PFloat float_one)) (Ok PNone))
                  (sample_context [("Amount in GHS", "sNaN")])
                  "sNaN" false 0 (PFloat float_one)
                  eq_refl eq_refl eq_refl) (DFin false 1 0) eq_refl).
Defined.

(** ** What a completion sends *)

Lemma prepare_submission_request (w : world) (ud : user_data_t)
    (req : http_request) :
  prepare_submission w ud = Ok req ->
  (req_url req = url_108 \/ req_url req = url_103)
  /\ req_timeout req = 10%Z
  /\ req_headers req = [ ("Authorization", "Bearer Bearer");
                         ("Content-Type", "application/json") ]
  /\ PyDict.lookup "typecast"
       (match req_json req with PDict d => d | _ => [] end)
     = Some (PBool true).
Proof.
  intros H. apply prepare_submission_Ok in H.
  destruct H as (rate & usd & f & url & _ & _ & Hurl & _ & ->).
  repeat split; try reflexivity. cbn [req_url airtable_request].
  unfold select_url in Hurl.
  destruct (String.eqb _ "108"); [left; congruence|].
  destruct (String.eqb _ "103"); [right; congruence | discriminate].
Qed.

(** X8. One run of [done] posts at most one request, and only to one of
    the two Airtable endpoints, with a timeout of 10 and the type-coercion
    flag set; it sends at most one reply.  When it returns, the result is
    [END], the session data is empty, and exactly one request and one reply
    were sent; when it raises, no reply was sent and the session data is kept
    apart from the pending marker. *)
Theorem completion_sends_at_most_one :
  forall (text : string) (command : option string) (w : world) (c : context),
    let run := done (Message text command) w c in
    (posted (fst run) = posted c
     \/ exists req,
          posted (fst run) = (posted c ++ [req])%list
          /\ (req_url req = url_108 \/ req_url req = url_103)
          /\ req_timeout req = 10%Z
          /\ PyDict.lookup "typecast"
               (match req_json req with PDict d => d | _ => [] end)
             = Some (PBool true))
    /\ (forall s, snd run = Ok s ->
          s = END /\ user_data (fst run) = []
          /\ exists req ok,
               posted (fst run) = (posted c ++ [req])%list
               /\ outbox (fst run) = (outbox c ++ [completion_reply ok])%list)
    /\ (forall e, snd run = Raise e ->
          outbox (fst run) = outbox c
          /\ user_data (fst run) = discard_choice (user_data c)).
Proof.
  intros text command w c run. subst run. rewrite done_eq. cbv zeta.
  destruct (prepare_submission w _) as [req|e0] eqn:Hprep.
  - destruct (prepare_submission_request _ _ _ Hprep) as (Hurl & Ht & _ & Hc).
    assert (Hreq : exists r,
              (posted c ++ [req] = posted c ++ [r])%list
              /\ (req_url r = url_108 \/ req_url r = url_103)
              /\ req_timeout r = 10%Z
              /\ PyDict.lookup "typecast"
                   (match req_json r with PDict d => d | _ => [] end)
                 = Some (PBool true)) by (exists req; auto).
    destruct (http_post w req) as [response|e1].
    + destruct (response_has_id response) as [ok|e2]; cbn [fst snd posted
        outbox user_data].
      * split; [right; exact Hreq|]. split.
        -- intros s Hs. injection Hs as <-. repeat split. exists req, ok. auto.
        -- discriminate.
      * split; [right; exact Hreq|]. split; [discriminate|]. auto.
    + cbn [fst snd posted outbox user_data].
      split; [right; exact Hreq|]. split; [discriminate|]. auto.
  - cbn [fst snd posted outbox user_data with_user_data].
    split; [left; reflexivity|]. split; [discriminate|]. auto.
Qed.

(** ** Inspecting the store's response *)

(** X9. On a response of the expected shape the inspection never raises:
    a dict without ["records"], or whose ["records"] is an empty list, is a
    failure; a dict whose ["records"] is a list starting with a dict is a
    success exactly when that first record has an ["id"] key. *)
Theorem response_inspection :
  forall (d : PyDict.t pyval),
    (PyDict.lookup "records" d = None ->
     response_has_id (PDict d) = Ok false)
    /\ (PyDict.lookup "records" d = Some (PList []) ->
        response_has_id (PDict d) = Ok false)
    /\ (forall fields rest,
          PyDict.lookup "records" d = Some (PList (PDict fields :: rest)) ->
          response_has_id (PDict d) = Ok (PyDict.contains "id" fields)).
Proof.
  intros d. unfold response_has_id, py_contains, PyDict.contains.
  split; [|split].
  - intros H. rewrite H. reflexivity.
  - intros H. cbn [py_getitem_str]. rewrite H. reflexivity.
  - intros fields rest H. cbn [py_getitem_str]. rewrite H. reflexivity.
Qed.

Lemma response_inspection_witness :
  response_has_id
    (PDict [("records", PList [PDict [("id", PStr "rec1");
                                      ("createdTime", PStr "t")]])])
  = Ok true.
Proof.
  apply (proj2 (proj2 (response_inspection
           [("records", PList [PDict [("id", PStr "rec1");
                                      ("createdTime", PStr "t")]])]))
           [("id", PStr "rec1"); ("createdTime", PStr "t")] []).
  reflexivity.
Defined.

(** ** When the rate fetch succeeds *)

(** X10. [get_exchange_rate] returns a value exactly when the service
    answers a dict whose ["rates"] entry is a dict: the value is then the
    ["USD"] entry or, without one, the float 1.0.  In every other case it
    raises, and it never changes the session. *)
Theorem exchange_rate_succeeds_iff :
  forall (w : world) (c : context) (v : pyval),
    get_exchange_rate w c = (c, Ok v)
    <-> exists payload rates,
          http_get w rate_url = Ok (PDict payload)
          /\ PyDict.lookup "rates" payload = Some (PDict rates)
          /\ v = PyDict.get "USD" (PFloat float_one) rates.
Proof.
  intros w c v. rewrite get_exchange_rate_eq. split.
  - intros H. injection H as H.
    destruct (http_get w rate_url) as [data|]; cbn [rbind] in H;
      [|discriminate].
    destruct data as [| | | | | |payload]; try discriminate.
    cbn [py_getitem_str] in H.
    destruct (PyDict.lookup "rates" payload) as [r|] eqn:Hr; cbn [rbind] in H;
      [|discriminate].
    destruct r as [| | | | | |rates]; try discriminate.
    cbn [py_get] in H. injection H as <-. eauto.
  - intros (payload & rates & Hget & Hr & ->).
    rewrite Hget. cbn [rbind py_getitem_str]. rewrite Hr. reflexivity.
Qed.

Lemma exchange_rate_succeeds_iff_witness :
  get_exchange_rate (sample_world (rates_payload (PInt 3)) (Ok PNone))
                    (sample_context [])
  = (sample_context [], Ok (PInt 3)).
Proof.
  apply (proj2 (exchange_rate_succeeds_iff
                  (sample_world (rates_payload (PInt 3)) (Ok PNone))
                  (sample_context []) (PInt 3))).
  exists [("rates", PDict [("USD", PInt 3)])], [("USD", PInt 3)].
  repeat split.
Defined.

Lemma completion_sends_at_most_one_witness :
  let run := done (Message "Done" None)
               (sample_world (rates_payload (PFloat float_one))
                  (Ok (PDict [("records", PList [])])))
               (sample_context [("Notes", "rent")]) in
  user_data (fst run) = [].
Proof.
  intros run.
  apply (proj1 (proj2 (completion_sends_at_most_one "Done" None
           (sample_world (rates_payload (PFloat float_one))
              (Ok (PDict [("records", PList [])])))
           (sample_context [("Notes", "rent")]))) END).
  vm_compute. reflexivity.
Defined.

(** ** The default rate *)

Lemma digits_fuel_pos (fuel : nat) (n : Z) : (1 <= digits_fuel fuel n)%Z.
Proof.
  revert n. induction fuel as [|f IH]; intros n; cbn [digits_fuel]; [lia|].
  destruct (n <? 10)%Z; [lia|]. specialize (IH (n / 10)%Z). lia.
Qed.

(** X11. With the default rate 1.0 (no ["USD"] entry in the payload) the
    USD amount is the parsed amount itself, coefficient and exponent
    unchanged, whenever the amount has at most 28 significant digits and
    lies within the exponent range of the context. *)
Theorem default_rate_keeps_amount :
  forall (neg : bool) (coeff exp : Z),
    (0 <= coeff)%Z ->
    (num_digits coeff <= PREC)%Z ->
    (Etiny <= exp)%Z ->
    (exp + num_digits coeff - 1 <= EMAX)%Z ->
    convert_to_usd (DFin neg coeff exp) (PFloat float_one)
    = Ok (DFin neg coeff exp).
Proof.
  intros neg coeff exp Hc Hd He1 He2.
  unfold convert_to_usd. cbn [Decimal Decimal_of_float float_one odd_part rbind].
  change (0 <=? 0)%Z with true. cbv iota.
  change (Z.pos 1 * 2 ^ 0)%Z with 1%Z. cbn [dec_mul].
  rewrite xorb_false_r, Z.mul_1_r, Z.add_0_r.
  unfold dec_fix. pose proof (digits_fuel_pos (Z.to_nat (Z.log2 coeff)) coeff).
  fold (num_digits coeff) in H.
  unfold Etiny, Etop, EMAX, EMIN, PREC in *.
  destruct (Z.eqb_spec coeff 0) as [->|Hnz].
  - do 2 f_equal. lia.
  - destruct (Z.ltb_spec (999999 - 28 + 1) (num_digits coeff + exp - 28));
      [lia|].
    destruct (Z.ltb_spec exp
                (Z.max (num_digits coeff + exp - 28) (-999999 - 28 + 1)));
      [lia | reflexivity].
Qed.

Lemma default_rate_keeps_amount_witness :
  convert_to_usd (parse_amount "12.50") (PFloat float_one)
  = Ok (DFin false 1250 (-2)).
Proof.
  apply (default_rate_keeps_amount false 1250 (-2));
    vm_compute; congruence.
Defined.

(** ** An invariant of the conversation *)

Lemma regular_choice_eq (text : string) (command : option string)
    (w : world) (c : context) :
  regular_choice (Message text command) w c
  = if String.eqb text "Expense Type" then
      expense_type_choice (Message text command) w c
    else if String.eqb text "Apt" then apt_choice (Message text command) w c
    else
      ({| user_data := PyDict.setitem "choice" text (user_data c);
          outbox := outbox c ++
            [{| msg_text := "Your " ++ str_lower text
                  ++ "? Yes, I would love to hear about that!";
                msg_markup := NoKeyboard |}];
          posted := posted c |}, Ok TYPING_REPLY).
Proof.
  unfold regular_choice. rewrite bind_eq. cbn [message_text ret]. cbv beta iota.
  destruct (String.eqb text "Expense Type"); [reflexivity|].
  destruct (String.eqb text "Apt"); reflexivity.
Qed.

Lemma selected_run
    (str_format : string -> string -> string -> result string)
    (data : string) (w : world) (c : context) :
  (exists out r,
      expense_type_selected str_format (CallbackQuery data) w c
      = ({| user_data := PyDict.setitem "Expense Type" data (user_data c);
            outbox := out; posted := posted c |}, r)
      /\ (r = Ok CHOOSING \/ exists e, r = Raise e))
  /\ (exists out r,
        apt_selected str_format (CallbackQuery data) w c
        = ({| user_data := PyDict.setitem "Apt" data (user_data c);
              outbox := out; posted := posted c |}, r)
        /\ (r = Ok CHOOSING \/ exists e, r = Raise e)).
Proof.
  split.
  - unfold expense_type_selected.
    rewrite bind_eq. cbn [query_data ret]. cbv beta iota.
    rewrite bind_eq. unfold set_item at 1. rewrite bind_eq.
    unfold get_user_data at 1, put_user_data at 1. cbv beta iota.
    rewrite bind_eq. unfold get_user_data at 1. cbv beta iota.
    cbn [user_data outbox posted]. rewrite bind_eq. unfold lift at 1.
    destruct (str_format _ _ _) as [text|e].
    + eexists _, _. split; [reflexivity|]. now left.
    + eexists _, _. split; [reflexivity|]. right. eauto.
  - unfold apt_selected.
    rewrite bind_eq. cbn [query_data ret]. cbv beta iota.
    rewrite bind_eq. unfold set_item at 1. rewrite bind_eq.
    unfold get_user_data at 1, put_user_data at 1. cbv beta iota.
    rewrite bind_eq. unfold get_user_data at 1. cbv beta iota.
    cbn [user_data outbox posted]. rewrite bind_eq. unfold lift at 1.
    destruct (str_format _ _ _) as [text|e].
    + eexists _, _. split; [reflexivity|]. now left.
    + eexists _, _. split; [reflexivity|]. right. eauto.
Qed.

Lemma regex_done_cases (text : string) :
  regex_search ["Done"] text = true ->
  text = "Done" \/ text = "Done" ++ LF.
Proof.
  unfold regex_search. cbn [existsb]. rewrite orb_false_r.
  intros H. apply orb_true_iff in H.
  destruct H as [H|H]; apply String.eqb_eq in H; auto.
Qed.

Lemma done_dispatch_gen
    (str_format : string -> string -> string -> result string)
    (st : Z) (text : string) (command : option string) :
  regex_search ["Done"] text = true ->
  check_update (conv_handler str_format) (Some st) (Message text command)
  = Some (MessageHandler (Regex ["Done"]) done).
Proof.
  intros H. apply regex_done_cases in H.
  unfold check_update, conv_handler. cbn [states fallbacks states_get].
  destruct H as [-> | ->];
    (destruct (CHOOSING =? st)%Z; [destruct command; reflexivity|];
     destruct (TYPING_CHOICE =? st)%Z; [reflexivity|];
     destruct (TYPING_APT =? st)%Z; [reflexivity|];
     destruct (TYPING_REPLY =? st)%Z; [destruct command; reflexivity|];
     reflexivity).
Qed.

(** The session data after a run of [done]. *)
Lemma done_user_data (text : string) (command : option string) (w : world)
    (c : context) :
  (exists s, snd (done (Message text command) w c) = Ok s
             /\ s = END
             /\ user_data (fst (done (Message text command) w c)) = [])
  \/ (exists e, snd (done (Message text command) w c) = Raise e
                /\ user_data (fst (done (Message text command) w c))
                   = discard_choice (user_data c)).
Proof.
  rewrite done_eq. cbv zeta.
  destruct (prepare_submission w _) as [req|e0];
    [|right; exists e0; split; reflexivity].
  destruct (http_post w req) as [response|e1];
    [|right; exists e1; split; reflexivity].
  destruct (response_has_id response) as [ok|e2].
  - left. exists END. repeat split.
  - right. exists e2. split; reflexivity.
Qed.

Lemma keys_discard_choice (ud : user_data_t) (k : string) :
  In k (PyDict.keys (discard_choice ud)) -> In k (PyDict.keys ud).
Proof.
  unfold discard_choice.
  destruct (PyDict.contains "choice" ud); [|auto].
  destruct (PyDict.delitem "choice" ud) as [ud'|] eqn:E; [|auto].
  destruct (keys_delitem _ _ _ E) as (l1 & l2 & H1 & H2 & _).
  rewrite H1, H2, !in_app_iff. simpl. tauto.
Qed.

Lemma wf_discard_choice (ud : user_data_t) :
  PyDict.wf ud -> PyDict.wf (discard_choice ud).
Proof.
  intros Hwf. unfold discard_choice.
  destruct (PyDict.contains "choice" ud); [|auto].
  destruct (PyDict.delitem "choice" ud) as [ud'|] eqn:E; [|auto].
  eapply wf_delitem; eauto.
Qed.

Lemma keys_setitem_elim {V} (d : PyDict.t V) (k k' : string) (v : V) :
  In k' (PyDict.keys (PyDict.setitem k v d)) ->
  k' = k \/ In k' (PyDict.keys d).
Proof.
  rewrite keys_setitem.
  destruct (existsb (String.eqb k) (PyDict.keys d)); [auto|].
  rewrite in_app_iff. simpl. intuition.
Qed.

Lemma check_choosing
    (str_format : string -> string -> string -> result string)
    (text : string) (command : option string) :
  check_update (conv_handler str_format) (Some CHOOSING) (Message text command)
  = if negb (String.eqb text "") && regex_search field_labels text
    then Some (MessageHandler (Regex field_labels) regular_choice)
    else if negb (String.eqb text "") && regex_search ["Done"] text
         then Some (MessageHandler (Regex ["Done"]) done)
         else None.
Proof.
  unfold check_update, conv_handler.
  cbn [states fallbacks states_get first_match find handler_check
       TYPING_REPLY CHOOSING TYPING_CHOICE TYPING_APT Z.eqb Pos.eqb
       filter_message].
  fold field_labels.
  destruct (negb (String.eqb text "") && regex_search field_labels text);
    reflexivity.
Qed.

Lemma check_typing_reply
    (str_format : string -> string -> string -> result string)
    (text : string) (command : option string) :
  check_update (conv_handler str_format) (Some TYPING_REPLY)
               (Message text command)
  = if negb (String.eqb text "")
       && negb (match command with Some _ => true | None => false end
                || negb (String.eqb text "") && regex_search ["Done"] text)
    then Some (MessageHandler
                 (f_and TEXT (f_not (f_or COMMAND (Regex ["Done"]))))
                 received_information)
    else if negb (String.eqb text "") && regex_search ["Done"] text
         then Some (MessageHandler (Regex ["Done"]) done)
         else None.
Proof.
  unfold check_update, conv_handler.
  cbn [states fallbacks states_get first_match find handler_check
       TYPING_REPLY CHOOSING TYPING_CHOICE TYPING_APT Z.eqb Pos.eqb
       filter_message].
  destruct (negb (String.eqb text "") && _); reflexivity.
Qed.

Lemma check_awaiting_choice
    (str_format : string -> string -> string -> result string)
    (st : Z) (text : string) (command : option string) :
  st = TYPING_CHOICE \/ st = TYPING_APT ->
  check_update (conv_handler str_format) (Some st) (Message text command)
  = if negb (String.eqb text "") && regex_search ["Done"] text
    then Some (MessageHandler (Regex ["Done"]) done)
    else None.
Proof. intros [-> | ->]; reflexivity. Qed.

Ltac inv_split := split; [|split; [|split; [|split; [|split]]]].

Lemma inv_unchanged_data (conv conv' : option Z) (c : context)
    (out : list message) :
  session_inv conv c ->
  In conv' [Some CHOOSING; Some TYPING_CHOICE; Some TYPING_APT] ->
  PyDict.lookup "choice" (user_data c) = None ->
  session_inv conv' {| user_data := user_data c; outbox := out;
                       posted := posted c |}.
Proof.
  intros (Hwf & Hst & Hnone & Hchoice & Hpend & Hkeys) Hconv' Hc.
  inv_split; cbn [user_data]; auto.
  - simpl in *. intuition.
  - intros ->. simpl in Hconv'. intuition discriminate.
Qed.

Lemma inv_after_done
    (str_format : string -> string -> string -> result string)
    (st : Z) (text : string) (command : option string) (w : world)
    (c : context) :
  regex_search ["Done"] text = true ->
  session_inv (Some st) c ->
  session_inv
    (fst (fst (handle_update (conv_handler str_format) (Some st)
                 (Message text command) w c)))
    (snd (fst (handle_update (conv_handler str_format) (Some st)
                 (Message text command) w c))).
Proof.
  intros Hdone (Hwf & Hst & Hnone & Hchoice & Hpend & Hkeys).
  unfold handle_update. rewrite (done_dispatch_gen _ _ _ _ Hdone).
  cbn [handler_callback].
  destruct (done_user_data text command w c)
    as [(s & Hs & -> & Hud) | (e & He & Hud)];
    destruct (done (Message text command) w c) as [c' r];
    cbn [fst snd] in *; subst r.
  - change (END =? END)%Z with true. cbv iota. cbn [fst snd].
    inv_split; rewrite ?Hud.
    + constructor.
    + simpl. auto.
    + reflexivity.
    + reflexivity.
    + intros f H. discriminate.
    + intros k [].
  - cbn [fst snd]. inv_split; rewrite ?Hud.
    + now apply wf_discard_choice.
    + exact Hst.
    + discriminate.
    + intros _. now apply lookup_choice_discard.
    + intros f H. rewrite lookup_choice_discard in H by assumption.
      discriminate.
    + intros k Hk. apply Hkeys. now apply keys_discard_choice.
Qed.

Lemma handle_update_inv
    (str_format : string -> string -> string -> result string)
    (conv : option Z) (u : update) (w : world) (c : context) :
  session_inv conv c ->
  session_inv (fst (fst (handle_update (conv_handler str_format) conv u w c)))
              (snd (fst (handle_update (conv_handler str_format) conv u w c))).
Proof.
  intros Hinv. pose proof Hinv as (Hwf & Hst & Hnone & Hchoice & Hpend & Hkeys).
  cbn [In] in Hst.
  destruct Hst as [<-|[<-|[<-|[<-|[<-|[]]]]]].
  - (* no conversation *)
    destruct u as [text [c0|]|data]; try exact Hinv.
    unfold handle_update, check_update, conv_handler.
    cbn [entry_points first_match find handler_check].
    destruct (String.eqb c0 "start"); [|exact Hinv].
    cbn [handler_callback fst snd]. unfold start.
    rewrite bind_eq. cbn [message_reply_text reply_text ret]. cbv beta iota.
    change (CHOOSING =? END)%Z with false. cbv iota. cbn [fst snd].
    apply (inv_unchanged_data None); auto.
    + simpl. auto.
    + rewrite (Hnone eq_refl). reflexivity.
  - (* CHOOSING *)
    destruct u as [text command|data]; [|exact Hinv].
    destruct (regex_search ["Done"] text) eqn:Hdone;
      [now apply inv_after_done|].
    unfold handle_update. rewrite check_choosing, Hdone, andb_false_r.
    destruct (String.eqb_spec text "") as [->|Hne]; [exact Hinv|].
    cbn [negb andb].
    destruct (regex_search field_labels text) eqn:Hlabel; [|exact Hinv].
    cbn [handler_callback]. rewrite regular_choice_eq.
    destruct (String.eqb text "Expense Type").
    { unfold expense_type_choice. rewrite bind_eq.
      cbn [message_reply_text reply_text ret]. cbv beta iota.
      change (TYPING_CHOICE =? END)%Z with false. cbv iota. cbn [fst snd].
      apply (inv_unchanged_data (Some CHOOSING)); auto.
      - simpl. auto.
      - apply Hchoice. discriminate. }
    destruct (String.eqb text "Apt").
    { unfold apt_choice. rewrite bind_eq.
      cbn [message_reply_text reply_text ret]. cbv beta iota.
      change (TYPING_APT =? END)%Z with false. cbv iota. cbn [fst snd].
      apply (inv_unchanged_data (Some CHOOSING)); auto.
      - simpl. auto.
      - apply Hchoice. discriminate. }
    change (TYPING_REPLY =? END)%Z with false. cbv iota. cbn [fst snd].
    inv_split; cbn [user_data].
    + now apply wf_setitem.
    + simpl. auto.
    + discriminate.
    + intros H. congruence.
    + intros f Hf. rewrite lookup_setitem_eq in Hf. congruence.
    + intros k Hk. apply keys_setitem_elim in Hk. destruct Hk; auto.
  - (* TYPING_REPLY *)
    destruct u as [text command|data]; [|exact Hinv].
    destruct (regex_search ["Done"] text) eqn:Hdone;
      [now apply inv_after_done|].
    unfold handle_update. rewrite check_typing_reply, Hdone, !andb_false_r.
    rewrite orb_false_r.
    destruct (String.eqb_spec text "") as [->|Hne]; [exact Hinv|].
    destruct command as [c0|]; [exact Hinv|].
    cbn [negb andb handler_callback]. rewrite received_information_eq.
    destruct (PyDict.lookup "choice" (user_data c)) as [[|c0 rest]|] eqn:Hc.
    + specialize (Hpend _ eq_refl). discriminate.
    + cbv zeta. set (f := String c0 rest) in *.
      set (ud1 := PyDict.setitem f text (user_data c)).
      assert (Hf : regex_search field_labels f = true) by now apply Hpend.
      assert (Hfc : f <> "choice") by (intros E; rewrite E in Hf; discriminate).
      assert (Hc1 : PyDict.lookup "choice" ud1 = Some f).
      { unfold ud1. rewrite lookup_setitem_neq by congruence. exact Hc. }
      destruct (PyDict.delitem "choice" ud1) as [ud2|] eqn:Hdel;
        [|apply delitem_None_iff in Hdel; congruence].
      change (CHOOSING =? END)%Z with false. cbv iota. cbn [fst snd].
      destruct (wf_delitem ud1 ud2 "choice") as [Hwf2 Hnone2]; auto.
      { unfold ud1. now apply wf_setitem. }
      inv_split; cbn [user_data]; auto.
      * simpl. auto.
      * discriminate.
      * intros g Hg. congruence.
      * intros k Hk.
        destruct (keys_delitem _ _ _ Hdel) as (l1 & l2 & H1 & H2 & _).
        assert (Hk1 : In k (PyDict.keys ud1)).
        { rewrite H1. rewrite H2 in Hk. rewrite in_app_iff in *. simpl. tauto. }
        unfold ud1 in Hk1. apply keys_setitem_elim in Hk1.
        destruct Hk1 as [->|Hk1]; auto.
    + change (CHOOSING =? END)%Z with false. cbv iota. cbn [fst snd].
      apply (inv_unchanged_data (Some TYPING_REPLY)); auto. simpl. auto.
  - (* TYPING_CHOICE *)
    destruct u as [text command|data].
    + destruct (regex_search ["Done"] text) eqn:Hdone;
        [now apply inv_after_done|].
      unfold handle_update.
      rewrite (check_awaiting_choice _ TYPING_CHOICE) by auto.
      rewrite Hdone, andb_false_r. exact Hinv.
    + unfold handle_update. cbn [check_update conv_handler states fallbacks
        states_get first_match find handler_check handler_callback
        TYPING_REPLY CHOOSING TYPING_CHOICE TYPING_APT Z.eqb Pos.eqb].
      destruct (proj1 (selected_run str_format data w c))
        as (out & r & E & Hr).
      rewrite E.
      assert (Hinv' : forall conv',
                In conv' [Some CHOOSING; Some TYPING_CHOICE] ->
                session_inv conv'
                  {| user_data := PyDict.setitem "Expense Type" data
                                    (user_data c);
                     outbox := out; posted := posted c |}).
      { intros conv' Hconv'. inv_split; cbn [user_data].
        - now apply wf_setitem.
        - simpl in *. intuition.
        - intros ->. simpl in Hconv'. intuition discriminate.
        - intros _. rewrite lookup_setitem_neq by discriminate.
          apply Hchoice. discriminate.
        - intros f Hf. rewrite lookup_setitem_neq in Hf by discriminate.
          now apply Hpend.
        - intros k Hk. apply keys_setitem_elim in Hk.
          destruct Hk as [->|Hk]; auto. }
      destruct Hr as [-> | [e ->]]; cbn [fst snd]; apply Hinv'; simpl; auto.
  - (* TYPING_APT *)
    destruct u as [text command|data].
    + destruct (regex_search ["Done"] text) eqn:Hdone;
        [now apply inv_after_done|].
      unfold handle_update.
      rewrite (check_awaiting_choice _ TYPING_APT) by auto.
      rewrite Hdone, andb_false_r. exact Hinv.
    + unfold handle_update. cbn [check_update conv_handler states fallbacks
        states_get first_match find handler_check handler_callback
        TYPING_REPLY CHOOSING TYPING_CHOICE TYPING_APT Z.eqb Pos.eqb].
      destruct (proj2 (selected_run str_format data w c))
        as (out & r & E & Hr).
      rewrite E.
      assert (Hinv' : forall conv',
                In conv' [Some CHOOSING; Some TYPING_APT] ->
                session_inv conv'
                  {| user_data := PyDict.setitem "Apt" data (user_data c);
                     outbox := out; posted := posted c |}).
      { intros conv' Hconv'. inv_split; cbn [user_data].
        - now apply wf_setitem.
        - simpl in *. intuition.
        - intros ->. simpl in Hconv'. intuition discriminate.
        - intros _. rewrite lookup_setitem_neq by discriminate.
          apply Hchoice. discriminate.
        - intros f Hf. rewrite lookup_setitem_neq in Hf by discriminate.
          now apply Hpend.
        - intros k Hk. apply keys_setitem_elim in Hk.
          destruct Hk as [->|Hk]; auto. }
      destruct Hr as [-> | [e ->]]; cbn [fst snd]; apply Hinv'; simpl; auto.
Qed.

Lemma handle_updates_inv
    (str_format : string -> string -> string -> result string)
    (us : list (update * world)) (conv : option Z) (c : context) :
  session_inv conv c ->
  session_inv (fst (handle_updates (conv_handler str_format) conv c us))
              (snd (handle_updates (conv_handler str_format) conv c us)).
Proof.
  revert conv c. induction us as [|[u w] r IH]; intros conv c Hinv; [exact Hinv|].
  cbn [handle_updates].
  pose proof (handle_update_inv str_format conv u w c Hinv) as H.
  destruct (handle_update (conv_handler str_format) conv u w c)
    as [[conv' c'] e]. cbn [fst snd] in H. now apply IH.
Qed.

(** X12. Whatever updates arrive and whatever the services answer, a
    session that starts closed and empty stays well formed: the
    conversation is closed or in one of the four states; a closed
    conversation holds no data; the pending marker ["choice"] is present only
    while a free-text reply is awaited, and then names an accepted label;
    the keys of the session data are accepted labels or the marker, without
    duplicates.  The property is kept by every single update. *)
Theorem session_invariant :
  forall (str_format : string -> string -> string -> result string)
         (us : list (update * world)),
    session_inv None (sample_context [])
    /\ (forall conv c,
          session_inv conv c ->
          session_inv
            (fst (handle_updates (conv_handler str_format) conv c us))
            (snd (handle_updates (conv_handler str_format) conv c us)))
    /\ session_inv
         (fst (handle_updates (conv_handler str_format) None
                 (sample_context []) us))
         (snd (handle_updates (conv_handler str_format) None
                 (sample_context []) us)).
Proof.
  intros sf us.
  assert (H0 : session_inv None (sample_context [])).
  { inv_split; cbn [user_data sample_context].
    - constructor.
    - simpl. auto.
    - reflexivity.
    - reflexivity.
    - discriminate.
    - intros k []. }
  split; [exact H0|]. split.
  - intros conv c. apply handle_updates_inv.
  - now apply handle_updates_inv.
Qed.

Lemma session_invariant_witness :
  let w := sample_world PNone (Ok PNone) in
  PyDict.lookup "choice"
    (user_data (snd (handle_updates (conv_handler format_plain) None
                       (sample_context [])
                       [(Message "/start" (Some "start"), w);
                        (Message "Notes" None, w);
                        (Message "rent" None, w)]))) = None.
Proof.
  intros w.
  pose proof (proj1 (proj2 (session_invariant format_plain
                 [(Message "/start" (Some "start"), w);
                  (Message "Notes" None, w);
                  (Message "rent" None, w)])) None (sample_context [])
                (proj1 (session_invariant format_plain []))) as H.
  destruct H as (_ & _ & _ & Hchoice & _). apply Hchoice.
  vm_compute. discriminate.
Defined.

(** ** Opening a conversation *)

(** X13. Outside a conversation only the command [/start] is handled: it
    sends the greeting with the field keyboard, keeps the session data and
    opens the conversation in [CHOOSING]; any other message and any button
    press change nothing.  While a conversation is running, a command
    ([/start] included) changes nothing. *)
Theorem start_opens_conversation :
  forall (str_format : string -> string -> string -> result string)
         (w : world) (c : context),
    let ch := conv_handler str_format in
    (forall text,
        handle_update ch None (Message text (Some "start")) w c
        = (Some CHOOSING,
           {| user_data := user_data c;
              outbox := outbox c ++
                [{| msg_text := "Hi! My name is Dilligent your expense Botter. I will update airtables with your expenses. Why don't you tell me what you have spent on?";
                    msg_markup := markup |}];
              posted := posted c |}, None))
    /\ (forall text command,
          command <> Some "start" ->
          handle_update ch None (Message text command) w c = (None, c, None))
    /\ (forall data, handle_update ch None (CallbackQuery data) w c
                     = (None, c, None))
    /\ (forall st text name,
          In st [CHOOSING; TYPING_REPLY; TYPING_CHOICE; TYPING_APT] ->
          regex_search field_labels text = false ->
          regex_search ["Done"] text = false ->
          handle_update ch (Some st) (Message text (Some name)) w c
          = (Some st, c, None)).
Proof.
  intros sf w c ch. subst ch. split; [reflexivity|]. split; [|split].
  - intros text [c0|] Hc; [|reflexivity].
    unfold handle_update, check_update, conv_handler.
    cbn [entry_points first_match find handler_check].
    destruct (String.eqb_spec c0 "start") as [->|]; [congruence | reflexivity].
  - reflexivity.
  - intros st text name Hst Hlabels Hdone. unfold handle_update.
    cbn [In] in Hst. destruct Hst as [<-|[<-|[<-|[<-|[]]]]].
    + rewrite check_choosing, Hlabels, Hdone, !andb_false_r. reflexivity.
    + rewrite check_typing_reply, Hdone, !andb_false_r.
      cbn [orb negb]. rewrite ?andb_false_r. reflexivity.
    + rewrite (check_awaiting_choice _ TYPING_CHOICE) by auto.
      rewrite Hdone, andb_false_r. reflexivity.
    + rewrite (check_awaiting_choice _ TYPING_APT) by auto.
      rewrite Hdone, andb_false_r. reflexivity.
Qed.

Lemma start_opens_conversation_witness :
  handle_update (conv_handler format_plain) (Some TYPING_REPLY)
    (Message "/start" (Some "start")) (sample_world PNone (Ok PNone))
    (sample_context [("choice", "Notes")])
  = (Some TYPING_REPLY, sample_context [("choice", "Notes")], None).
Proof.
  apply (proj2 (proj2 (proj2 (start_opens_conversation format_plain
           (sample_world PNone (Ok PNone))
           (sample_context [("choice", "Notes")])))) TYPING_REPLY "/start"
           "start"); [simpl; auto | reflexivity | reflexivity].
Defined.

(** ** A whole conversation *)

Lemma handle_updates_cons (ch : ConversationHandler) (conv : option Z)
    (c : context) (u : update) (w : world) (r : list (update * world)) :
  handle_updates ch conv c ((u, w) :: r)
  = handle_updates ch (fst (fst (handle_update ch conv u w c)))
                   (snd (fst (handle_update ch conv u w c))) r.
Proof.
  cbn [handle_updates].
  destruct (handle_update ch conv u w c) as [[conv' c'] e]. reflexivity.
Qed.

Lemma handle_label_eq
    (str_format : string -> string -> string -> result string)
    (text : string) (w : world) (c : context) :
  In text ["Name of Expense"; "Amount in GHS"; "Notes"] ->
  handle_update (conv_handler str_format) (Some CHOOSING) (Message text None)
    w c
  = (Some TYPING_REPLY,
     {| user_data := PyDict.setitem "choice" text (user_data c);
        outbox := outbox c ++
          [{| msg_text := "Your " ++ str_lower text
                ++ "? Yes, I would love to hear about that!";
              msg_markup := NoKeyboard |}];
        posted := posted c |}, None).
Proof. intros [<-|[<-|[<-|[]]]]; reflexivity. Qed.

Lemma handle_reply_stored
    (str_format : string -> string -> string -> result string)
    (text field : string) (w : world) (c : context) (ud2 : user_data_t) :
  text <> "" ->
  regex_search ["Done"] text = false ->
  PyDict.lookup "choice" (user_data c) = Some field ->
  field <> "" ->
  PyDict.delitem "choice" (PyDict.setitem field text (user_data c)) = Some ud2 ->
  handle_update (conv_handler str_format) (Some TYPING_REPLY)
    (Message text None) w c
  = (Some CHOOSING,
     {| user_data := ud2; outbox := outbox c ++ [summary_reply ud2];
        posted := posted c |}, None).
Proof.
  intros Hne Hdone Hchoice Hf Hdel. unfold handle_update.
  rewrite (reply_dispatch str_format text Hne Hdone). cbn [handler_callback].
  rewrite received_information_eq, Hchoice.
  destruct field as [|c0 rest]; [congruence|]. cbv zeta. rewrite Hdel.
  reflexivity.
Qed.

Lemma handle_apt_selected_eq
    (str_format : string -> string -> string -> result string)
    (data ack : string) (w : world) (c : context) :
  str_format (apt_template (PyDict.setitem "Apt" data (user_data c)))
             "selected_apt" data = Ok ack ->
  handle_update (conv_handler str_format) (Some TYPING_APT)
    (CallbackQuery data) w c
  = (Some CHOOSING,
     {| user_data := PyDict.setitem "Apt" data (user_data c);
        outbox := outbox c ++
          [{| msg_text := ack; msg_markup := ReplyKeyboard reply_keyboard |}];
        posted := posted c |}, None).
Proof.
  intros Hack. unfold handle_update.
  cbn [check_update conv_handler states fallbacks
       states_get first_match find handler_check handler_callback
       TYPING_REPLY CHOOSING TYPING_CHOICE TYPING_APT Z.eqb Pos.eqb].
  unfold apt_selected.
  rewrite bind_eq. cbn [query_data ret]. cbv beta iota.
  rewrite bind_eq. unfold set_item at 1. rewrite bind_eq.
  unfold get_user_data at 1, put_user_data at 1. cbv beta iota.
  rewrite bind_eq. unfold get_user_data at 1. cbv beta iota.
  cbn [user_data outbox posted]. rewrite bind_eq. unfold lift at 1.
  fold (apt_template (PyDict.setitem "Apt" data (user_data c))).
  rewrite Hack. reflexivity.
Qed.

(** X14. The end-to-end scenario, for any name, amount text and apartment
    code: after [/start], "Name of Expense" answered by [name], "Amount in
    GHS" answered by [amount], "Apt" answered by the button of [code], and
    "Done", exactly one request has been posted; it goes to the endpoint of
    [code] and carries the name, the category ["Uncategorized"], empty notes
    and, as expense, the float of the amount times the rate.  When the store
    then answers with a record id, the success message is the last reply, the
    session data is empty and the conversation is closed. *)
Theorem end_to_end_submission :
  forall (str_format : string -> string -> string -> result string)
         (name amount code ack : string) (w : world)
         (rate : pyval) (usd : decimal) (f : pyfloat),
    name <> "" -> regex_search ["Done"] name = false ->
    amount <> "" -> regex_search ["Done"] amount = false ->
    code = "103" \/ code = "108" ->
    str_format
      (apt_template [("Name of Expense", name); ("Amount in GHS", amount);
                     ("Apt", code)]) "selected_apt" code = Ok ack ->
    snd (get_exchange_rate w (sample_context [])) = Ok rate ->
    convert_to_usd (parse_amount amount) rate = Ok usd ->
    float_of_Decimal usd = Ok f ->
    let final := handle_updates (conv_handler str_format) None
                   (sample_context []) (scenario name amount code w) in
    let req := airtable_request w
                 (if String.eqb code "103" then url_103 else url_108)
                 name "Uncategorized" f "" in
    posted (snd final) = [req]
    /\ (forall response,
          http_post w req = Ok response ->
          response_has_id response = Ok true ->
          fst final = None
          /\ user_data (snd final) = []
          /\ last (outbox (snd final)) greeting = completion_reply true).
Proof.
  intros sf name amount code ack w rate usd f
         Hn1 Hn2 Ha1 Ha2 Hcode Hack Hrate Husd Hf final req.
  subst final. unfold scenario.
  rewrite handle_updates_cons.
  change (handle_update (conv_handler sf) None
            (Message "/start" (Some "start")) w (sample_context []))
    with (Some CHOOSING,
          {| user_data := []; outbox := [greeting]; posted := [] |},
          @None exn).
  cbn [fst snd].
  rewrite handle_updates_cons, (handle_label_eq sf "Name of Expense")
    by (simpl; auto).
  cbn [fst snd user_data outbox posted].
  rewrite handle_updates_cons.
  rewrite (handle_reply_stored sf name "Name of Expense" w _
             [("Name of Expense", name)] Hn1 Hn2)
    by (reflexivity || discriminate).
  cbn [fst snd user_data outbox posted].
  rewrite handle_updates_cons, (handle_label_eq sf "Amount in GHS")
    by (simpl; auto).
  cbn [fst snd user_data outbox posted].
  rewrite handle_updates_cons.
  rewrite (handle_reply_stored sf amount "Amount in GHS" w _
             [("Name of Expense", name); ("Amount in GHS", amount)] Ha1 Ha2)
    by (reflexivity || discriminate).
  cbn [fst snd user_data outbox posted].
  rewrite handle_updates_cons.
  match goal with
  | |- context [handle_update _ (Some CHOOSING) (Message "Apt" None) w ?c] =>
      change (handle_update (conv_handler sf) (Some CHOOSING)
                (Message "Apt" None) w c)
        with (Some TYPING_APT,
              {| user_data := user_data c;
                 outbox := outbox c ++
                   [{| msg_text :=
                         "Please choose an Apt option from the list below:";
                       msg_markup :=
                         InlineKeyboard [[("Option 103", "103")];
                                         [("Option 108", "108")]] |}];
                 posted := posted c |}, @None exn)
  end.
  cbn [fst snd user_data outbox posted].
  rewrite handle_updates_cons.
  rewrite (handle_apt_selected_eq sf code ack) by exact Hack.
  cbn [fst snd user_data outbox posted].
  rewrite handle_updates_cons, handle_done_eq. cbn [handle_updates].
  rewrite done_eq. cbv zeta. cbn [user_data outbox posted].
  set (ud := PyDict.setitem "Apt" code
               [("Name of Expense", name); ("Amount in GHS", amount)]).
  assert (Hud : ud = [("Name of Expense", name); ("Amount in GHS", amount);
                      ("Apt", code)]) by reflexivity.
  assert (Hprep : prepare_submission w (discard_choice ud) = Ok req).
  { rewrite (prepare_submission_after_rate w _ rate Hrate), Hud.
    change (discard_choice
              [("Name of Expense", name); ("Amount in GHS", amount);
               ("Apt", code)])
      with [("Name of Expense", name); ("Amount in GHS", amount);
            ("Apt", code)].
    change (PyDict.get "Amount in GHS" "0" _) with amount.
    rewrite Husd. cbn [rbind].
    change (PyDict.get "Apt" "108" _) with code.
    assert (Hurl : select_url code
                   = Ok (if String.eqb code "103" then url_103 else url_108))
      by (destruct Hcode as [-> | ->]; reflexivity).
    rewrite Hurl. cbn [rbind]. rewrite Hf. reflexivity. }
  rewrite Hprep. split.
  - destruct (http_post w req) as [response|]; [|reflexivity].
    destruct (response_has_id response); reflexivity.
  - intros response Hpost Hid. rewrite Hpost, Hid. cbn [fst snd user_data outbox].
    split; [reflexivity|]. split; [reflexivity|]. apply last_last.
Qed.

Lemma end_to_end_submission_witness :
  let w := sample_world (rates_payload (PFloat float_0_083))
             (Ok (PDict [("records", PList [PDict [("id", PStr "rec1")]])])) in
  posted (snd (handle_updates (conv_handler format_plain) None
                 (sample_context [])
                 (scenario "Groceries" "50" "103" w)))
  = [airtable_request w url_103 "Groceries" "Uncategorized"
       (float_of_literal false 415 (-2)) ""].
Proof.
  intros w.
  apply (end_to_end_submission format_plain "Groceries" "50" "103"
           (match format_plain
                    (apt_template [("Name of Expense", "Groceries");
                                   ("Amount in GHS", "50"); ("Apt", "103")])
                    "selected_apt" "103" with
            | Ok s => s
            | Raise _ => ""
            end)
           w (PFloat float_0_083)
           (DFin false 4150000000000000216493489802 (-27))
           (float_of_literal false 415 (-2)));
    try discriminate; try (vm_compute; reflexivity).
  left. reflexivity.
Defined.

(** ** Amount texts that are silently read as zero *)

Lemma ascii_eqb_false_of (P : ascii -> bool) (x c : ascii) :
  P x = true -> P c = false -> Ascii.eqb x c = false.
Proof.
  intros Hx Hc. destruct (Ascii.eqb_spec x c); [congruence | reflexivity].
Qed.

Lemma str_mem_lstrip (c : ascii) (s : string) :
  is_space c = false -> str_mem c (lstrip s) = str_mem c s.
Proof.
  intros Hc. induction s as [|x s IH]; [reflexivity|]. cbn [lstrip].
  destruct (is_space x) eqn:Hx; [|reflexivity].
  rewrite IH. cbn [str_mem]. now rewrite (ascii_eqb_false_of is_space x c).
Qed.

Lemma str_mem_rstrip (c : ascii) (s : string) :
  is_space c = false -> str_mem c (rstrip s) = str_mem c s.
Proof.
  intros Hc. induction s as [|x s IH]; [reflexivity|]. cbn [rstrip str_mem].
  rewrite <- IH. destruct (rstrip s) as [|y r].
  - destruct (is_space x) eqn:Hx; [|reflexivity].
    cbn [str_mem]. now rewrite (ascii_eqb_false_of is_space x c).
  - reflexivity.
Qed.

Lemma str_mem_remove_char (c x : ascii) (s : string) :
  Ascii.eqb c x = false -> str_mem c (remove_char x s) = str_mem c s.
Proof.
  intros Hc. induction s as [|y s IH]; [reflexivity|]. cbn [remove_char str_mem].
  destruct (Ascii.eqb_spec y x) as [->|].
  - rewrite IH. rewrite Ascii.eqb_sym, Hc. reflexivity.
  - cbn [str_mem]. now rewrite IH.
Qed.

Lemma str_mem_map (f : ascii -> ascii) (c : ascii) (s : string) :
  str_mem c s = true -> str_mem (f c) (str_map f s) = true.
Proof.
  induction s as [|y s IH]; [discriminate|]. cbn [str_mem str_map].
  intros H. apply orb_true_iff in H. destruct H as [H|H].
  - apply Ascii.eqb_eq in H. subst. now rewrite Ascii.eqb_refl.
  - rewrite (IH H). apply orb_true_r.
Qed.

Lemma span_digits_chars (s : string) :
  forall acc len v l rest,
    span_digits acc len s = (v, l, rest) ->
    forall x, str_mem x s = true ->
              digit_val x <> None \/ str_mem x rest = true.
Proof.
  induction s as [|y s IH]; intros acc len v l rest H x Hx; [discriminate|].
  cbn [span_digits] in H. destruct (digit_val y) as [d|] eqn:Hy.
  - cbn [str_mem] in Hx. apply orb_true_iff in Hx. destruct Hx as [Hx|Hx].
    + apply Ascii.eqb_eq in Hx. subst. left. congruence.
    + eapply IH; eauto.
  - injection H as _ _ <-. now right.
Qed.

Lemma substring_0_all (s : string) (m : nat) :
  String.length s <= m -> String.substring 0 m s = s.
Proof.
  revert m. induction s as [|y s IH]; intros m H.
  - destruct m; reflexivity.
  - destruct m as [|m]; [simpl in H; lia|]. cbn [String.substring].
    f_equal. apply IH. simpl in H. lia.
Qed.

Lemma prefix_split (p s : string) (m : nat) :
  String.prefix p s = true -> String.length s <= m ->
  s = p ++ String.substring (String.length p) m s.
Proof.
  revert s. induction p as [|a p IH]; intros s H Hm.
  - cbn [String.length String.append]. now rewrite substring_0_all.
  - destruct s as [|b s]; [discriminate|]. cbn [String.prefix] in H.
    destruct (ascii_dec a b) as [->|]; [|discriminate].
    cbn [String.length String.substring String.append]. f_equal.
    apply IH; auto. simpl in Hm. lia.
Qed.

Lemma parse_payload_none (s : string) (x : ascii) :
  str_mem x s = true -> digit_val x = None -> parse_payload s = None.
Proof.
  intros Hx Hd. unfold parse_payload.
  destruct (span_digits 0 0 s) as [[v l] rest] eqn:E.
  destruct (span_digits_chars _ _ _ _ _ _ E x Hx) as [H|H]; [congruence|].
  destruct rest; [discriminate | reflexivity].
Qed.

Lemma digit_val_lower (c : ascii) :
  digit_val c = None -> digit_val (ascii_lower c) = None.
Proof.
  destruct c as [[] [] [] [] [] [] [] []]; vm_compute; congruence.
Qed.

Lemma split_sign_chars (s body : string) (neg : bool) (x : ascii) :
  split_sign s = (neg, body) ->
  str_mem x s = true ->
  str_mem x "+-" = true \/ str_mem x body = true.
Proof.
  intros H Hx. destruct s as [|y s']; [discriminate|].
  cbn [str_mem] in Hx. apply orb_true_iff in Hx.
  destruct y as [[] [] [] [] [] [] [] []]; cbn in H; injection H as <- <-;
    try (right; cbn [str_mem]; apply orb_true_iff; exact Hx);
    (destruct Hx as [Hx|Hx];
     [left; apply Ascii.eqb_eq in Hx; subst; reflexivity | now right]).
Qed.

Lemma parse_exponent_chars (s : string) (v : Z) (x : ascii) :
  parse_exponent s = Some v ->
  str_mem x s = true ->
  digit_val x <> None \/ str_mem x "+-" = true
  \/ Ascii.eqb (ascii_lower x) "e"%char = true.
Proof.
  intros H Hx. destruct s as [|y s']; [discriminate|].
  cbn [parse_exponent] in H.
  destruct (Ascii.eqb (ascii_lower y) "e"%char) eqn:Hy; [|discriminate].
  cbn [str_mem] in Hx. apply orb_true_iff in Hx. destruct Hx as [Hx|Hx].
  - apply Ascii.eqb_eq in Hx. subst. auto.
  - destruct (split_sign s') as [eneg ds] eqn:Hs.
    destruct (split_sign_chars _ _ _ x Hs Hx) as [Hsg|Hds]; [auto|].
    destruct (span_digits 0 0 ds) as [[v' len] rest] eqn:E.
    destruct rest; [|discriminate].
    destruct (span_digits_chars _ _ _ _ _ _ E x Hds) as [Hd|Hd];
      [auto | discriminate].
Qed.

Lemma parse_number_chars (s : string) (res : Z * Z) (x : ascii) :
  parse_number s = Some res ->
  str_mem x s = true ->
  digit_val x <> None \/ str_mem x "+-." = true
  \/ Ascii.eqb (ascii_lower x) "e"%char = true.
Proof.
  intros H Hx. unfold parse_number in H.
  destruct (span_digits 0 0 s) as [[ip ilen] r1] eqn:E1.
  destruct (span_digits_chars _ _ _ _ _ _ E1 x Hx) as [Hd|Hr1]; [auto|].
  assert (Hsign : str_mem x "+-" = true -> str_mem x "+-." = true).
  { cbn [str_mem]. intros Hs. rewrite !orb_false_r in *.
    apply orb_true_iff in Hs. destruct Hs as [-> | ->];
      rewrite ?orb_true_r; reflexivity. }
  assert (Hexp : forall r2 v,
            parse_exponent r2 = Some v -> str_mem x r2 = true ->
            digit_val x <> None \/ str_mem x "+-." = true
            \/ Ascii.eqb (ascii_lower x) "e"%char = true).
  { intros r2 v Hp Hm.
    destruct (parse_exponent_chars _ _ x Hp Hm) as [?|[?|?]]; auto. }
  destruct r1 as [|y r]; [discriminate|].
  cbn [str_mem] in Hr1. apply orb_true_iff in Hr1.
  destruct y as [[] [] [] [] [] [] [] []];
    try (destruct (ilen + 0 =? 0)%Z; [discriminate|];
         match type of H with
         | match parse_exponent ?r2 with _ => _ end = _ =>
             destruct (parse_exponent r2) as [v|] eqn:Hp; [|discriminate];
             apply (Hexp _ v Hp); cbn [str_mem]; apply orb_true_iff; exact Hr1
         end).
  (* the point *)
  destruct (span_digits ip 0 r) as [[coeff flen] r2] eqn:E2.
  destruct (ilen + flen =? 0)%Z; [discriminate|].
  destruct (parse_exponent r2) as [v|] eqn:Hp; [|discriminate].
  destruct Hr1 as [Hx1|Hx1].
  - apply Ascii.eqb_eq in Hx1. subst. right. left. reflexivity.
  - destruct (span_digits_chars _ _ _ _ _ _ E2 x Hx1) as [Hd|Hr2]; [auto|].
    apply (Hexp _ v Hp Hr2).
Qed.

Lemma letters_of_specials (lc : ascii) :
  str_mem lc "einfatys" = false ->
  str_mem lc "snan" = false /\ str_mem lc "nan" = false
  /\ str_mem lc "inf" = false /\ str_mem lc "infinity" = false
  /\ Ascii.eqb lc "e"%char = false.
Proof.
  destruct lc as [[] [] [] [] [] [] [] []]; vm_compute; intuition congruence.
Qed.

Lemma Decimal_of_str_foreign_char (text : string) (c : ascii) :
  str_mem c text = true ->
  amount_char c = false ->
  Decimal_of_str text = Raise InvalidOperation.
Proof.
  intros Hc Ha. unfold amount_char in Ha.
  apply orb_false_elim in Ha. destruct Ha as [Ha Hlt].
  apply orb_false_elim in Ha. destruct Ha as [Ha Hsg].
  apply orb_false_elim in Ha. destruct Ha as [Ha Hdg].
  apply orb_false_elim in Ha. destruct Ha as [Hsp Hus].
  assert (Hd : digit_val c = None) by (destruct (digit_val c); congruence).
  destruct (letters_of_specials _ Hlt) as (L1 & L2 & L3 & L4 & L5).
  unfold Decimal_of_str.
  set (s2 := remove_char "_"%char (strip text)).
  assert (Hs2 : str_mem c s2 = true).
  { unfold s2, strip.
    now rewrite str_mem_remove_char, str_mem_rstrip, str_mem_lstrip. }
  destruct (split_sign s2) as [neg body] eqn:Hsplit.
  assert (Hbody : str_mem c body = true).
  { destruct (split_sign_chars _ _ _ c Hsplit Hs2) as [H|H]; [|exact H].
    exfalso. cbn [str_mem] in H, Hsg. rewrite !orb_false_r in *.
    apply orb_true_iff in H.
    destruct H as [H|H]; rewrite H in Hsg; rewrite ?orb_true_r in Hsg;
      discriminate. }
  set (low := str_map ascii_lower body).
  assert (Hlow : str_mem (ascii_lower c) low = true)
    by now apply str_mem_map.
  pose proof (digit_val_lower c Hd) as Hdl.
  destruct (String.prefix "snan" low) eqn:P1.
  { rewrite (prefix_split "snan" low (String.length low) P1 (le_n _)) in Hlow.
    rewrite str_mem_app, L1 in Hlow. cbn [orb String.length] in Hlow.
    now rewrite (parse_payload_none _ _ Hlow Hdl). }
  destruct (String.prefix "nan" low) eqn:P2.
  { rewrite (prefix_split "nan" low (String.length low) P2 (le_n _)) in Hlow.
    rewrite str_mem_app, L2 in Hlow. cbn [orb String.length] in Hlow.
    now rewrite (parse_payload_none _ _ Hlow Hdl). }
  destruct (String.eqb_spec low "inf") as [E|_];
    [rewrite E in Hlow; congruence|].
  destruct (String.eqb_spec low "infinity") as [E|_];
    [rewrite E in Hlow; congruence|].
  cbn [orb].
  destruct (parse_number body) as [[coeff x]|] eqn:Hp; [|reflexivity].
  exfalso.
  destruct (parse_number_chars _ _ c Hp Hbody) as [H|[H|H]]; congruence.
Qed.

(** X15. An amount text containing any character that no decimal literal
    contains (a comma, a currency sign, a letter other than those of the
    exponent marker and of the special values) is not parsed: [Decimal]
    raises, and [done] silently takes the amount to be zero. *)
Theorem foreign_character_gives_zero :
  forall (text : string) (c : ascii),
    str_mem c text = true ->
    amount_char c = false ->
    Decimal (PStr text) = Raise InvalidOperation
    /\ parse_amount text = DFin false 0 0.
Proof.
  intros text c Hc Ha.
  pose proof (Decimal_of_str_foreign_char text c Hc Ha) as H.
  split; [exact H|]. unfold parse_amount. cbn [Decimal]. now rewrite H.
Qed.

Lemma foreign_character_gives_zero_witness :
  parse_amount "1,250.00" = DFin false 0 0.
Proof.
  apply (foreign_character_gives_zero "1,250.00" ","%char); reflexivity.
Defined.

(** ** A selection round is an assignment *)

Lemma delitem_setitem_fresh {V} (d : PyDict.t V) (k0 : string) (v0 : V) :
  PyDict.lookup k0 d = None ->
  PyDict.delitem k0 (PyDict.setitem k0 v0 d) = Some d.
Proof.
  induction d as [|[k1 v1] r IH]; cbn [PyDict.lookup PyDict.setitem
                                        PyDict.delitem]; intros H.
  - now rewrite String.eqb_refl.
  - destruct (String.eqb k1 k0) eqn:E; [discriminate|].
    cbn [PyDict.delitem]. rewrite E, (IH H). reflexivity.
Qed.

Lemma delitem_setitem_marker {V} (d : PyDict.t V) (k k0 : string) (v v0 : V) :
  PyDict.lookup k0 d = None -> k <> k0 ->
  PyDict.delitem k0 (PyDict.setitem k v (PyDict.setitem k0 v0 d))
  = Some (PyDict.setitem k v d).
Proof.
  intros H Hne. induction d as [|[k1 v1] r IH];
    cbn [PyDict.lookup PyDict.setitem PyDict.delitem] in *.
  - rewrite (String_eqb_neq k0 k) by congruence.
    cbn [PyDict.delitem PyDict.setitem]. now rewrite String.eqb_refl.
  - destruct (String.eqb k1 k0) eqn:E0; [discriminate|].
    cbn [PyDict.setitem]. destruct (String.eqb k1 k) eqn:E1;
      cbn [PyDict.delitem]; rewrite E0.
    + now rewrite (delitem_setitem_fresh r k0 v0 H).
    + now rewrite (IH H).
Qed.

(** X16. From [CHOOSING] with no pending marker, selecting one of the
    three free-text labels and then replying with a text acts on the session
    data exactly as the assignment [user_data[label] = text]: an existing
    field is overwritten in place, a new one is appended, nothing else moves;
    the conversation is back in [CHOOSING] and nothing is posted. *)
Theorem selection_round_is_assignment :
  forall (str_format : string -> string -> string -> result string)
         (label text : string) (w1 w2 : world) (c : context),
    In label ["Name of Expense"; "Amount in GHS"; "Notes"] ->
    text <> "" ->
    regex_search ["Done"] text = false ->
    PyDict.lookup "choice" (user_data c) = None ->
    let final := handle_updates (conv_handler str_format) (Some CHOOSING) c
                   [(Message label None, w1); (Message text None, w2)] in
    fst final = Some CHOOSING
    /\ user_data (snd final) = PyDict.setitem label text (user_data c)
    /\ posted (snd final) = posted c
    /\ last (outbox (snd final)) greeting
       = summary_reply (PyDict.setitem label text (user_data c)).
Proof.
  intros sf label text w1 w2 c Hlabel Hne Hdone Hchoice final. subst final.
  rewrite handle_updates_cons, (handle_label_eq sf label w1 c Hlabel).
  cbn [fst snd]. rewrite handle_updates_cons.
  assert (Hl1 : label <> "")
    by (cbn [In] in Hlabel; intuition (subst; discriminate)).
  assert (Hl2 : label <> "choice")
    by (cbn [In] in Hlabel; intuition (subst; discriminate)).
  rewrite (handle_reply_stored sf text label w2 _
             (PyDict.setitem label text (user_data c)) Hne Hdone).
  - cbn [handle_updates fst snd user_data outbox posted].
    repeat split. apply last_last.
  - cbn [user_data]. apply lookup_setitem_eq.
  - exact Hl1.
  - cbn [user_data]. now apply delitem_setitem_marker.
Qed.

Lemma selection_round_is_assignment_witness :
  user_data
    (snd (handle_updates (conv_handler format_plain) (Some CHOOSING)
            (sample_context [("Notes", "water"); ("Apt", "103")])
            [(Message "Notes" None, sample_world PNone (Ok PNone));
             (Message "rent" None, sample_world PNone (Ok PNone))]))
  = [("Notes", "rent"); ("Apt", "103")].
Proof.
  apply (selection_round_is_assignment format_plain "Notes" "rent"
           (sample_world PNone (Ok PNone)) (sample_world PNone (Ok PNone))
           (sample_context [("Notes", "water"); ("Apt", "103")]));
    [simpl; auto | discriminate | reflexivity | reflexivity].
Defined.


(* ================================================================== *)
(** * Amount parsing and the rest of the completion *)
(* ================================================================== *)





